(** * led_clock.py: a MAX7219 LED clock, embedded and verified

    The program is one render loop with a handful of helpers: typed reads of
    environment variables, a day/night time-window check, a CPU temperature
    read, a 3x5 bitmap font, the right-aligned time with its two-dot colon,
    a scrolling date ticker, a seconds bar and two short animations.

    Conventions of the embedding:
    - a Python [int] is a [Z];
    - a Python [float] that the program only reads, compares or passes on (a
      setting, a temperature, a sleep length) is its exact value, a rational
      [Q]; infinities and NaN are outside the model;
    - float arithmetic whose rounding can be seen is computed in IEEE binary64
      with the primitive floats: the seconds bar and the time elapsed since
      the last ticker;
    - a [str] is a [string] of ASCII characters;
    - an exception caught by the source is the [None] of an [option]; the one
      exception the source does not catch, the [ValueError] of [time.sleep] on
      a negative length, ends the run that meets it and then the loop;
    - the calls into luma (contrast, canvas, text, textsize, clear) are taken
      to return;
    - the drawing surface is the list of drawing calls made on it, in order;
    - what the program does to the display and the clock is a list of events;
    - what it reads from the outside (clock, sensor, shutdown flag) is an
      argument of the function that reads it. *)

From Stdlib Require Import ZArith QArith Qround Qabs String Ascii List Bool Lia Lqa DecimalString.
From Stdlib Require Floats Uint63.
Import ListNotations.

#[local] Open Scope string_scope.
#[local] Open Scope list_scope.
#[local] Open Scope Z_scope.

(** ** Python built-ins used by the program *)

Module Py.

(** [str(n)] for an int. *)
Definition str_of_int (n : Z) : string := NilZero.string_of_int (Z.to_int n).


(** [s.split(sep)] with a one-character separator: [k] separators give
    [k + 1] parts, the empty string gives one empty part. *)
Fixpoint split (sep : ascii) (s : string) : list string :=
  match s with
  | EmptyString => [EmptyString]
  | String c rest =>
      if Ascii.eqb c sep then EmptyString :: split sep rest
      else match split sep rest with
           | part :: parts => String c part :: parts
           | [] => [String c EmptyString]
           end
  end.

(** [s.split(sep, 1)] when [sep in s]: the text before the first separator
    and the text after it; [None] when [sep] does not occur. *)
Fixpoint split_first (sep : ascii) (s : string) : option (string * string) :=
  match s with
  | EmptyString => None
  | String c rest =>
      if Ascii.eqb c sep then Some (EmptyString, rest)
      else match split_first sep rest with
           | Some (a, b) => Some (String c a, b)
           | None => None
           end
  end.

(** [s[:n]] and [s[-n:]] for [n > 0]. *)
Definition take (n : nat) (s : string) : string := substring 0 n s.
Definition take_last (n : nat) (s : string) : string :=
  substring (String.length s - n) n s.

(** ASCII white space as [str.strip()] sees it. *)
Definition is_space (c : ascii) : bool :=
  let n := nat_of_ascii c in
  ((9 <=? n) && (n <=? 13) || (28 <=? n) && (n <=? 32))%nat.

Fixpoint lstrip_of (space : ascii -> bool) (s : string) : string :=
  match s with
  | EmptyString => EmptyString
  | String c rest => if space c then lstrip_of space rest else s
  end.

Fixpoint rstrip_of (space : ascii -> bool) (s : string) : string :=
  match s with
  | EmptyString => EmptyString
  | String c rest =>
      match rstrip_of space rest with
      | EmptyString => if space c then EmptyString else String c EmptyString
      | r => String c r
      end
  end.

(** [s.strip()]. *)
Definition strip (s : string) : string := rstrip_of is_space (lstrip_of is_space s).

(** [range(start, stop, step)] for [step <> 0] (the program never passes 0). *)
Definition range_len (start stop step : Z) : nat :=
  if 0 <? step then
    if start <? stop then Z.to_nat ((stop - start - 1) / step + 1) else 0%nat
  else
    if stop <? start then Z.to_nat ((start - stop - 1) / (- step) + 1) else 0%nat.

Definition range3 (start stop step : Z) : list Z :=
  map (fun i => start + Z.of_nat i * step) (seq 0 (range_len start stop step)).

Definition range (stop : Z) : list Z := range3 0 stop 1.

(** [enumerate(s)] over the characters of a string. *)
Definition enumerate (s : string) : list (nat * ascii) :=
  combine (seq 0 (String.length s)) (list_ascii_of_string s).

(** [min(a, b)] and [max(a, b)] as Python computes them: the first argument
    stays unless the second is strictly better. *)
Definition min (a b : Q) : Q := if Qlt_le_dec b a then b else a.
Definition max (a b : Q) : Q := if Qlt_le_dec a b then b else a.

(** [round(x)] of a float: to the nearest integer, a tie to the even one. *)
Definition round (x : Q) : Z :=
  let f := Qfloor x in
  match (x - inject_Z f ?= 1 # 2)%Q with
  | Lt => f
  | Gt => f + 1
  | Eq => if Z.even f then f else f + 1
  end.

(** Truth value of an int. *)
Definition bool_of_int (n : Z) : bool := negb (n =? 0).

(** Whether converting the int to a float raises OverflowError ("int too
    large to convert to float"): the int rounds to [2^1024] or beyond, that is
    from [2^1024 - 2^970] on in absolute value. *)
Definition too_large_for_float (n : Z) : bool := 2 ^ 1024 - 2 ^ 970 <=? Z.abs n.

(** Truth value of an optional string ([None] and [""] are false). *)
Definition truthy (s : option string) : bool :=
  match s with
  | Some (String _ _) => true
  | _ => false
  end.

End Py.

(** ** What the program takes from its runtime

    [int(s)] and [float(s)] ([None] stands for the [ValueError] the source
    catches), [str(x)] of a float, luma's [textsize] and [datetime.strftime]. *)

Inductive font := TINY_FONT | SINCLAIR_FONT.

Record datetime := {
  year : Z; month : Z; day : Z;
  weekday : Z;          (* dt.weekday(): 0 = Monday *)
  hour : Z; minute : Z; second : Z; microsecond : Z
}.

Class Runtime := {
  py_int : string -> option Z;
  py_float : string -> option Q;
  str_of_float : Q -> string;
  textsize : string -> font -> Z * Z;
  strftime : datetime -> string -> string
}.

(** The environment: [os.getenv(name)] is [env name]. *)
Definition environ := string -> option string.

Definition getenv (env : environ) (name default : string) : string :=
  match env name with
  | Some v => v
  | None => default
  end.

Section Helpers.
Context {R : Runtime}.

(** ** ENV helpers *)

Definition _env_int (env : environ) (name : string) (default : Z) : Z :=
  match py_int (getenv env name (Py.str_of_int default)) with
  | Some v => v
  | None => default
  end.

Definition _env_float (env : environ) (name : string) (default : Q) : Q :=
  match py_float (getenv env name (str_of_float default)) with
  | Some v => v
  | None => default
  end.

Definition _env_bool (env : environ) (name : string) (default : Z) : bool :=
  match py_int (getenv env name (Py.str_of_int default)) with
  | Some v => Py.bool_of_int v
  | None => Py.bool_of_int default
  end.

(** The body of the [try] in [_parse_hhmm]: [None] when unpacking
    [map(int, s.split(":"))] into two names raises. *)
Definition parse_hhmm_try (s : string) : option (Z * Z) :=
  match Py.split ":" s with
  | [a; b] =>
      match py_int a, py_int b with
      | Some h, Some m => Some (h mod 24, m mod 60)
      | _, _ => None
      end
  | _ => None
  end.

Definition _parse_hhmm (s : string) (fallback : Z * Z) : Z * Z :=
  match parse_hhmm_try s with
  | Some hm => hm
  | None => fallback
  end.

Definition _in_window (now : datetime) (start_hm end_hm : Z * Z) : bool :=
  let cur := hour now * 60 + minute now in
  let s := fst start_hm * 60 + snd start_hm in
  let e := fst end_hm * 60 + snd end_hm in
  if s <=? e then (s <=? cur) && (cur <? e)
  else (cur >=? s) || (cur <? e).

End Helpers.

(** ** Sensors *)

Definition is_digit_or_dot (c : ascii) : bool :=
  let n := nat_of_ascii c in
  ((48 <=? n) && (n <=? 57) || (n =? 46))%nat.

Fixpoint take_while (p : ascii -> bool) (s : string) : string :=
  match s with
  | EmptyString => EmptyString
  | String c rest => if p c then String c (take_while p rest) else EmptyString
  end.

(** [re.search(r"temp=([\d\.]+)", out)]: group 1 of the leftmost match. *)
Fixpoint search_temp (out : string) : option string :=
  match out with
  | EmptyString => None
  | String _ rest =>
      let here :=
        if String.prefix "temp=" out then
          take_while is_digit_or_dot (substring 5 (String.length out - 5) out)
        else EmptyString in
      match here with
      | EmptyString => search_temp rest
      | g => Some g
      end
  end.

Section Sensors.
Context {R : Runtime}.

(** [sysfs] is the text of /sys/class/thermal/thermal_zone0/temp and [vcgencmd]
    the decoded output of [vcgencmd measure_temp]; each is [None] when
    reading it raises. The division [int(...) / 1000.0] raises OverflowError
    for an integer too large to convert to a float, and [except Exception]
    sends that to the second source as well. The quotient is kept exact: the
    program only clamps it and rounds it to an integer. *)
Definition get_cpu_temp_c (sysfs vcgencmd : option string) : option Q :=
  let fallback :=
    match vcgencmd with
    | Some out =>
        match search_temp out with
        | Some g => py_float g
        | None => None
        end
    | None => None
    end in
  match sysfs with
  | Some text =>
      match py_int (Py.strip text) with
      | Some n =>
          if Py.too_large_for_float n then fallback else Some (inject_Z n / 1000)%Q
      | None => fallback
      end
  | None => fallback
  end.

End Sensors.

(** [temp_raw] of the main loop:
    ["--" if temp_c is None else f"{int(round(max(-99, min(199, temp_c))))}"]. *)
Definition clamp_temp (temp_c : Q) : Q := Py.max (-99) (Py.min 199 temp_c).

Definition temp_raw (temp_c : option Q) : string :=
  match temp_c with
  | None => "--"
  | Some t => Py.str_of_int (Py.round (clamp_temp t))
  end.

(** ** The drawing surface *)

Record device := { width : Z; height : Z }.

Inductive draw_op :=
| Point (x y : Z)                           (* draw.point((x, y), fill="white") *)
| Text (x y : Z) (txt : string) (f : font). (* legacy_text(draw, (x, y), txt, font=f, fill="white") *)

(** ** Tiny 3x5 font for temperature *)

Definition DIGITS_3x5 (ch : ascii) : option (list string) :=
  match ch with
  | "0"%char => Some ["111"; "101"; "101"; "101"; "111"]
  | "1"%char => Some ["010"; "110"; "010"; "010"; "111"]
  | "2"%char => Some ["111"; "001"; "111"; "100"; "111"]
  | "3"%char => Some ["111"; "001"; "111"; "001"; "111"]
  | "4"%char => Some ["101"; "101"; "111"; "001"; "001"]
  | "5"%char => Some ["111"; "100"; "111"; "001"; "111"]
  | "6"%char => Some ["111"; "100"; "111"; "101"; "111"]
  | "7"%char => Some ["111"; "001"; "010"; "100"; "100"]
  | "8"%char => Some ["111"; "101"; "111"; "101"; "111"]
  | "9"%char => Some ["111"; "101"; "111"; "001"; "111"]
  | "-"%char => Some ["000"; "000"; "111"; "000"; "000"]
  | "C"%char => Some ["111"; "100"; "100"; "100"; "111"]
  | _ => None
  end.

Definition small35_text_size (txt : string) (spacing : Z) : Z * Z :=
  let n := String.length txt in
  let w :=
    fold_left
      (fun w '(i, ch) =>
         match DIGITS_3x5 ch with
         | Some _ =>
             let w := w + 3 in
             if negb (Z.of_nat i =? Z.of_nat n - 1) then w + spacing else w
         | None => w
         end)
      (Py.enumerate txt) 0 in
  (w, 5).

(** The points of one glyph with its left top corner at [(cx, y)]. *)
Definition draw_glyph (cx y : Z) (glyph : list string) : list draw_op :=
  flat_map
    (fun '(ry, row) =>
       flat_map
         (fun '(rx, bit) =>
            if Ascii.eqb bit "1" then [Point (cx + Z.of_nat rx) (y + Z.of_nat ry)]
            else [])
         (Py.enumerate row))
    (combine (seq 0 (List.length glyph)) glyph).

(** The loop of [draw_small35] carries [cx] and the points drawn so far. *)
Definition draw_small35_step (n : nat) (y spacing : Z)
  (acc : Z * list draw_op) (ich : nat * ascii) : Z * list draw_op :=
  let '(cx, ops) := acc in
  let '(i, ch) := ich in
  match DIGITS_3x5 ch with
  | None => (cx, ops)
  | Some glyph =>
      let ops := ops ++ draw_glyph cx y glyph in
      let cx := cx + 3 in
      if negb (Z.of_nat i =? Z.of_nat n - 1) then (cx + spacing, ops) else (cx, ops)
  end.

Definition draw_small35 (x y : Z) (txt : string) (spacing : Z) : list draw_op :=
  snd (fold_left (draw_small35_step (String.length txt) y spacing)
                 (Py.enumerate txt) (x, [])).

(** ** Time rendering with custom colon *)

Section Drawing.
Context {R : Runtime}.

(** [hh, mm] of the time string. *)
Definition hh_mm (timestr : string) : string * string :=
  match Py.split_first ":" timestr with
  | Some parts => parts
  | None => ("88", "88")
  end.

(** "If not enough room, shrink reserved left area so time never shifts". *)
Definition shrink_left_reserved (dev : device) (w_time left_reserved : Z) : Z :=
  if left_reserved + w_time >? width dev then Z.max 0 (width dev - w_time)
  else left_reserved.

Definition draw_time_with_custom_colon (dev : device) (timestr : string) (f : font)
  (blink : bool) (left_reserved gap colon_w colon_vgap time_offset : Z) : list draw_op :=
  let '(hh, mm) := hh_mm timestr in
  let '(w_h, h) := textsize hh f in
  let '(w_m, _) := textsize mm f in
  let w_time := w_h + gap + colon_w + gap + w_m in
  let left_reserved := shrink_left_reserved dev w_time left_reserved in
  let x0 := Z.max 0 (width dev - (left_reserved + w_time)) + time_offset in
  let y := Z.max 0 ((height dev - h) / 2) in
  let cx := x0 + left_reserved + w_h + gap in
  [Text (x0 + left_reserved) y hh f]
  ++ (if negb blink then
        let t1 := y + Z.max 0 ((h - 1 - colon_vgap) / 2) in
        let t2 := Z.min (y + h - 1) (t1 + colon_vgap) in
        [Point cx t1; Point cx t2]
      else [])
  ++ [Text (cx + colon_w + gap) y mm f].

End Drawing.

(** ** ASCII English date ticker *)

Definition WD_EN : list string := ["Mon"; "Tue"; "Wed"; "Thu"; "Fri"; "Sat"; "Sun"].
Definition MO_EN : list string :=
  ["Jan"; "Feb"; "Mar"; "Apr"; "May"; "Jun"; "Jul"; "Aug"; "Sep"; "Oct"; "Nov"; "Dec"].

(** [f"{n:02d}"]. *)
Definition pad2 (n : Z) : string :=
  let s := Py.str_of_int n in
  if (String.length s <? 2)%nat then String "0" s else s.

(** A datetime has [1 <= month <= 12], so [MO_EN[dt.month - 1]] is in range. *)
Definition format_en_date (dt : datetime) (with_year : bool) : string :=
  let base :=
    (nth (Z.to_nat (weekday dt mod 7)) WD_EN "" ++ " " ++ pad2 (day dt) ++ " "
     ++ nth (Z.to_nat (month dt - 1)) MO_EN "")%string in
  if with_year then (base ++ " " ++ Py.str_of_int (year dt))%string else base.

(** One [with canvas(device) as draw: ...] block, one [time.sleep(secs)]
    that returned, and one that raised ValueError ("sleep length must be
    non-negative"), which ends the run. *)
Inductive frame_ev :=
| Frame (ops : list draw_op)
| Sleep (secs : Q)
| SleepRaised (secs : Q).

(** [time.sleep(secs)] raises exactly for a negative length. *)
Definition sleep_raises (secs : Q) : bool := negb (Qle_bool 0 secs).

(** Whether a run ended by an exception. *)
Definition raised (run : list frame_ev) : bool :=
  existsb (fun e => match e with SleepRaised _ => true | _ => false end) run.

(** The global [stop] as a loop sees it: [stop k] is the value of the flag at
    the loop's check number [k] (a signal handler may set it at any moment). *)
Definition stop_flag := nat -> bool.

Section Animations.
Context {R : Runtime}.

(** The [for offset in range(0, total, 1)] loop, from check number [k] on. *)
Fixpoint marquee_loop (dev : device) (text_ascii : string) (f : font) (speed : Q)
  (h : Z) (stop : stop_flag) (k : nat) (offsets : list Z) : list frame_ev :=
  match offsets with
  | [] => []
  | offset :: rest =>
      if stop k then []
      else
        let x := width dev - offset in
        let y := Z.max 0 ((height dev - h) / 2) in
        Frame [Text x y text_ascii f]
          :: (if sleep_raises speed then [SleepRaised speed]
              else Sleep speed
                     :: marquee_loop dev text_ascii f speed h stop (S k) rest)
  end.

Definition marquee_once_legacy (dev : device) (text_ascii : string) (f : font)
  (speed : Q) (gap : Z) (stop : stop_flag) : list frame_ev :=
  let '(w, h) := textsize text_ascii f in
  let total := width dev + w + gap in
  marquee_loop dev text_ascii f speed h stop 0 (Py.range3 0 total 1).

End Animations.

(** ** Visual add-ons *)

(** The arithmetic of [draw_seconds_bar] and of the ticker interval, in IEEE
    binary64, operation by operation. An int becomes a float through
    [of_uint63], which rounds to nearest as the interpreter does; this covers
    the ints from 0 to [2^63 - 1], and every int the program meets here (a
    second, a microsecond, a display width) is one. *)
Module Binary64.
Import Uint63.

(** [int(x)] for [0 <= x < 2^53]: below 1 it is 0; otherwise
    [x = m * 2^(e - 2101)] with [1/2 <= m < 1], the mantissa is the integer
    [m * 2^53], and the integer part of [x] is the mantissa shifted right by
    [53 - (e - 2101)]. *)
Definition trunc_int (x : PrimFloat.float) : int :=
  if PrimFloat.ltb x PrimFloat.one then 0%uint63
  else
    let (m, e) := PrimFloat.frshiftexp x in
    (PrimFloat.normfr_mantissa m >> (2154 - e))%uint63.

(** The same through the sign, mantissa and exponent of the float. *)
Definition trunc_by_fields (x : PrimFloat.float) : Z :=
  match FloatOps.Prim2SF x with
  | SpecFloat.S754_finite sign m e =>
      let v := if 0 <=? e then Z.pos m * 2 ^ e else Z.pos m / 2 ^ (- e) in
      if sign then - v else v
  | _ => 0
  end.

(** The exact value of a finite float. *)
Definition value (x : PrimFloat.float) : Q :=
  match FloatOps.Prim2SF x with
  | SpecFloat.S754_finite sign m e =>
      let n := if sign then Z.neg m else Z.pos m in
      if 0 <=? e then inject_Z (n * 2 ^ e) else Qmake n (Z.to_pos (2 ^ (- e)))
  | _ => 0%Q
  end.

(** The float of a small int. *)
Definition float_of_Z (n : Z) : PrimFloat.float := PrimFloat.of_uint63 (of_Z n).

(** [(second + microsecond / 1_000_000.0) / 60.0]. *)
Definition frac (s u : int) : PrimFloat.float :=
  PrimFloat.div
    (PrimFloat.add (PrimFloat.of_uint63 s)
       (PrimFloat.div (PrimFloat.of_uint63 u) (PrimFloat.of_uint63 1000000%uint63)))
    (PrimFloat.of_uint63 60%uint63).

(** [int(frac * width)]. *)
Definition filled_int (s u w : int) : int :=
  trunc_int (PrimFloat.mul (frac s u) (PrimFloat.of_uint63 w)).

(** [filled] of [draw_seconds_bar]. *)
Definition seconds_bar_filled (now_dt : datetime) (width : Z) : Z :=
  to_Z (filled_int (of_Z (second now_dt)) (of_Z (microsecond now_dt)) (of_Z width)).

(** The widths of one, two, three, four and eight cascaded modules. *)
Definition widths : list Z := [8; 16; 24; 32; 64].

Definition int_widths : list int := Eval vm_compute in map of_Z widths.

(** Whether, [i] microseconds into the minute, binary64 gives the exact
    count on each of these widths. *)
Definition agrees (i : int) : bool :=
  let x := frac (i / 1000000)%uint63 (i mod 1000000)%uint63 in
  forallb
    (fun w =>
       (trunc_int (PrimFloat.mul x (PrimFloat.of_uint63 w)) =? i * w / 60000000)%uint63)
    int_widths.

(** A test over the [2^d] integers from [lo] on, by halving. *)
Fixpoint pow2 (d : nat) : int :=
  match d with
  | O => 1%uint63
  | S d' => (2 * pow2 d')%uint63
  end.

Fixpoint all_from (d : nat) (lo : int) (f : int -> bool) : bool :=
  match d with
  | O => f lo
  | S d' => all_from d' lo f && all_from d' (lo + pow2 d')%uint63 f
  end.

Definition below (n : int) (f : int -> bool) (i : int) : bool :=
  if (i <? n)%uint63 then f i else true.

(** The instants of the grid: every 100 microseconds, 600000 in a minute.
    The pixel boundaries of these widths are all on it. *)
Definition agrees_on_grid (j : int) : bool := agrees (100 * j)%uint63.

End Binary64.

Definition draw_seconds_bar (now_dt : datetime) (width y : Z) (dotted : bool)
  : list draw_op :=
  let filled := Binary64.seconds_bar_filled now_dt width in
  if dotted then map (fun x => Point x y) (Py.range3 0 filled 2)
  else map (fun x => Point x y) (Py.range filled).

Section Swipe.
Context {R : Runtime}.

(** The temperature widget of a frame: [if temp_txt: draw_small35(...)]. *)
Definition draw_temp (dev : device) (temp_txt : option string) : list draw_op :=
  match temp_txt with
  | Some txt =>
      if Py.truthy temp_txt then draw_small35 0 ((height dev - 5) / 2) txt 1 else []
  | None => []
  end.

(** The [for dx in range(swipe_px, -1, -1)] loop, from check number [k] on. *)
Fixpoint minute_swipe_loop (dev : device) (timestr : string) (time_font : font)
  (left_reserved colon_vgap : Z) (temp_txt : option string) (frame_delay : Q)
  (stop : stop_flag) (k : nat) (dxs : list Z) : list frame_ev :=
  match dxs with
  | [] => []
  | dx :: rest =>
      if stop k then []
      else
        Frame (draw_temp dev temp_txt
               ++ draw_time_with_custom_colon dev timestr time_font false
                    left_reserved 1 1 colon_vgap dx)
          :: (if sleep_raises frame_delay then [SleepRaised frame_delay]
              else Sleep frame_delay
                     :: minute_swipe_loop dev timestr time_font left_reserved colon_vgap
                          temp_txt frame_delay stop (S k) rest)
  end.

(** The [blink] argument is not used by the source: every frame of the swipe
    passes [blink=False] to the time renderer. *)
Definition minute_swipe (dev : device) (timestr : string) (time_font : font)
  (blink : bool) (left_reserved colon_vgap : Z) (temp_txt : option string)
  (swipe_px : Z) (frame_delay : Q) (stop : stop_flag) : list frame_ev :=
  let swipe_px := Z.max 1 swipe_px in
  minute_swipe_loop dev timestr time_font left_reserved colon_vgap temp_txt
    frame_delay stop 0 (Py.range3 swipe_px (-1) (-1)).

End Swipe.

(** ** Main *)

(** The settings [main] reads before the loop (the SPI wiring, which only
    reaches the device constructor, is left to [device]). *)
Record config := {
  time_font : font;
  ticker_font : font;
  time_fmt : string;
  blink_colon : Z;
  colon_vgap : Z;
  ticker_every : Q;
  ticker_speed : Q;
  ticker_gap : Z;
  ticker_with_year : Z;
  show_unit_c : Z;
  auto_dim : bool;
  day_brt : Z;
  night_brt : Z;
  night_from : Z * Z;
  night_to : Z * Z;
  seconds_bar : bool;
  seconds_bar_dots : bool;
  sparkle_on_hour : bool;
  sparkle_duration : Q;
  sparkle_density : Q;
  sparkle_fps : Z;
  minute_swipe_en : bool;
  minute_swipe_px : Z;
  minute_swipe_dt : Q
}.

(** The scalars the loop keeps from one iteration to the next;
    [last_ticker_ts] is a reading of [time.monotonic()], a float. *)
Record state := {
  current_brt : Z;
  last_minute_for_dim : Z;
  last_rendered_minute : option Z;
  last_ticker_ts : PrimFloat.float
}.

(** What one iteration reads from the outside. *)
Record world := {
  stop_at_loop : bool;          (* [stop] at [while not stop] *)
  clock : datetime;             (* [datetime.now()] *)
  mono_check : PrimFloat.float; (* [time.monotonic()] in the ticker test *)
  mono_done : PrimFloat.float;  (* [time.monotonic()] after the ticker *)
  sysfs_text : option string;
  vcgencmd_out : option string;
  stop_in_ticker : stop_flag;
  stop_in_swipe : stop_flag
}.

(** What the program does, in order. [Sparkle] stands for one call of
    [hour_sparkle], whose frames are random. *)
Inductive event :=
| Contrast (level : Z)
| Sparkle (duration density : Q) (fps : Z)
| Ticker (txt : string) (run : list frame_ev)
| Swipe (run : list frame_ev)
| Normal (ops : list draw_op)
| Idle (secs : Q)
| ClearDisplay.

(** Whether the event is an animation that ended by an exception; nothing
    in [main] catches it, so it ends the loop. *)
Definition event_raised (e : event) : bool :=
  match e with
  | Ticker _ run | Swipe run => raised run
  | _ => false
  end.

Section Main.
Context {R : Runtime}.

Definition load_config (env : environ) : config := {|
  time_font := if _env_int env "LED_FONT" 1 =? 2 then SINCLAIR_FONT else TINY_FONT;
  ticker_font := if _env_int env "LED_TICKER_FONT" 1 =? 2 then SINCLAIR_FONT else TINY_FONT;
  time_fmt := getenv env "LED_TIME_FMT" "%H:%M";
  blink_colon := _env_int env "LED_BLINK_COLON" 1;
  colon_vgap := _env_int env "LED_COLON_VGAP" 2;
  ticker_every := _env_float env "LED_TICKER_EVERY" 60;
  ticker_speed := _env_float env "LED_TICKER_SPEED" (7 # 100);
  ticker_gap := _env_int env "LED_TICKER_GAP" 16;
  ticker_with_year := _env_int env "LED_TICKER_WITH_YEAR" 1;
  show_unit_c := _env_int env "LED_TEMP_SHOW_C" 1;
  auto_dim := _env_bool env "LED_AUTO_DIM" 1;
  day_brt := _env_int env "LED_BRIGHTNESS_DAY" 12;
  night_brt := _env_int env "LED_BRIGHTNESS_NIGHT" 3;
  night_from := _parse_hhmm (getenv env "LED_NIGHT_FROM" "22:30") (22, 30);
  night_to := _parse_hhmm (getenv env "LED_NIGHT_TO" "07:00") (7, 0);
  seconds_bar := _env_bool env "LED_SECONDS_BAR" 1;
  seconds_bar_dots := _env_bool env "LED_SECONDS_BAR_DOTTED" 0;
  sparkle_on_hour := _env_bool env "LED_SPARKLE_ON_HOUR" 1;
  sparkle_duration := _env_float env "LED_SPARKLE_DURATION" (45 # 100);
  sparkle_density := _env_float env "LED_SPARKLE_DENSITY" (15 # 100);
  sparkle_fps := _env_int env "LED_SPARKLE_FPS" 20;
  minute_swipe_en := _env_bool env "LED_MINUTE_SWIPE" 1;
  minute_swipe_px := _env_int env "LED_MINUTE_SWIPE_PX" 8;
  minute_swipe_dt := _env_float env "LED_MINUTE_SWIPE_DELAY" (3 # 100)
|}.

(** [night_brt if _in_window(now, night_from, night_to) else day_brt]. *)
Definition brightness_target (cfg : config) (now : datetime) : Z :=
  if _in_window now (night_from cfg) (night_to cfg) then night_brt cfg else day_brt cfg.

(** "Auto-dim check once per minute". *)
Definition auto_dim_step (cfg : config) (st : state) (now : datetime)
  : state * list event :=
  if auto_dim cfg && negb (minute now =? last_minute_for_dim st) then
    let target := brightness_target cfg now in
    if negb (target =? current_brt st) then
      ({| current_brt := target;
          last_minute_for_dim := minute now;
          last_rendered_minute := last_rendered_minute st;
          last_ticker_ts := last_ticker_ts st |},
       [Contrast target])
    else
      ({| current_brt := current_brt st;
          last_minute_for_dim := minute now;
          last_rendered_minute := last_rendered_minute st;
          last_ticker_ts := last_ticker_ts st |},
       [])
  else (st, []).

(** The hour-sparkle instant: [now.minute == 0 and now.second == 0]. *)
Definition on_the_hour (now : datetime) : bool :=
  (minute now =? 0) && (second now =? 0).

Definition sparkle_step (cfg : config) (now : datetime) : list event :=
  if sparkle_on_hour cfg && on_the_hour now then
    [Sparkle (sparkle_duration cfg) (sparkle_density cfg) (sparkle_fps cfg)]
  else [].

(** [time.monotonic() - last_ticker_ts]: the binary64 difference of the two
    readings, at its exact value. *)
Definition since_ticker (st : state) (w : world) : Q :=
  Binary64.value (PrimFloat.sub (mono_check w) (last_ticker_ts st)).

(** [time.monotonic() - last_ticker_ts >= ticker_every]. *)
Definition ticker_due (cfg : config) (st : state) (w : world) : bool :=
  Qle_bool (ticker_every cfg) (since_ticker st w).

(** "Ticker: scroll date periodically (skip if we are on the exact hour second
    0 to avoid conflict)". [last_ticker_ts] is set after the marquee, so only
    when it returned. *)
Definition ticker_step (cfg : config) (dev : device) (st : state) (w : world)
  : state * list event :=
  let now := clock w in
  if ticker_due cfg st w && negb (on_the_hour now) then
    let txt := format_en_date now (Py.bool_of_int (ticker_with_year cfg)) in
    let run := marquee_once_legacy dev txt (ticker_font cfg) (ticker_speed cfg)
                 (ticker_gap cfg) (stop_in_ticker w) in
    (if raised run then st
     else {| current_brt := current_brt st;
             last_minute_for_dim := last_minute_for_dim st;
             last_rendered_minute := last_rendered_minute st;
             last_ticker_ts := mono_done w |},
     [Ticker txt run])
  else (st, []).

(** [blink = bool(blink_colon and (now.second % 2 == 1))]. *)
Definition blink_of (cfg : config) (now : datetime) : bool :=
  Py.bool_of_int (blink_colon cfg) && (second now mod 2 =? 1).

(** [left_alloc_max]: the room left of the time. *)
Definition left_alloc_max_of (cfg : config) (dev : device) (s : string) : Z :=
  let '(hh, mm) :=
    match Py.split ":" s with
    | [a; b] => (a, b)
    | _ => (Py.take 2 s, Py.take_last 2 s)
    end in
  let '(w_h, h) := textsize hh (time_font cfg) in
  let '(w_m, _) := textsize mm (time_font cfg) in
  let w_time := w_h + 1 + 1 + 1 + w_m in
  Z.max 0 (width dev - w_time).

(** "Prepare temperature text and left reservation budget":
    [(temp_txt, left_reserved)]. *)
Definition temp_layout (cfg : config) (env : environ) (left_alloc_max : Z)
  (temp_c : option Q) : option string * Z :=
  let raw := temp_raw temp_c in
  let w_nn := fst (small35_text_size raw 1) in
  let w_nnC :=
    fst (small35_text_size
           (raw ++ (if Py.bool_of_int (show_unit_c cfg) then "C" else ""))%string 1) in
  if _env_bool env "LED_DRAW_TEMP" 1 && (left_alloc_max >=? 3) then
    let temp_txt :=
      if Py.bool_of_int (show_unit_c cfg) && (w_nnC <=? left_alloc_max)
      then Some (raw ++ "C")%string
      else if w_nn <=? left_alloc_max then Some raw
      else None in
    match temp_txt with
    | Some txt =>
        if Py.truthy temp_txt
        then (temp_txt, Z.min left_alloc_max (fst (small35_text_size txt 1)))
        else (temp_txt, 0)
    | None => (None, 0)
    end
  else (None, 0).

(** The "Normal frame" block. *)
Definition normal_frame (cfg : config) (dev : device) (now : datetime) (s : string)
  (blink : bool) (temp_txt : option string) (left_reserved : Z) : list draw_op :=
  draw_temp dev temp_txt
  ++ draw_time_with_custom_colon dev s (time_font cfg) blink left_reserved 1 1
       (colon_vgap cfg) 0
  ++ (if seconds_bar cfg
      then draw_seconds_bar now (width dev) (height dev - 1) (seconds_bar_dots cfg)
      else []).

(** "Minute-change swipe (when minute changed since last render)". *)
Definition swipe_due (cfg : config) (st : state) (now : datetime) : bool :=
  minute_swipe_en cfg
  && match last_rendered_minute st with
     | None => true
     | Some m => negb (minute now =? m)
     end.

(** [last_rendered_minute] is set after the swipe, so only when it returned. *)
Definition swipe_step (cfg : config) (dev : device) (st : state) (w : world)
  (s : string) (temp_txt : option string) (left_reserved : Z) : state * list event :=
  let now := clock w in
  if swipe_due cfg st now then
    let run := minute_swipe dev s (time_font cfg) false left_reserved (colon_vgap cfg)
                 temp_txt (minute_swipe_px cfg) (minute_swipe_dt cfg) (stop_in_swipe w) in
    (if raised run then st
     else {| current_brt := current_brt st;
             last_minute_for_dim := last_minute_for_dim st;
             last_rendered_minute := Some (minute now);
             last_ticker_ts := last_ticker_ts st |},
     [Swipe run])
  else (st, []).

(** One pass through the body of [while not stop]: the state at its end and
    what it did. An animation that raises ends the pass there; its event is
    then the last one. *)
Definition main_iteration (cfg : config) (dev : device) (env : environ)
  (st : state) (w : world) : state * list event :=
  let now := clock w in
  let '(st, ev_dim) := auto_dim_step cfg st now in
  let ev_sparkle := sparkle_step cfg now in
  let '(st, ev_ticker) := ticker_step cfg dev st w in
  if existsb event_raised ev_ticker then (st, ev_dim ++ ev_sparkle ++ ev_ticker)
  else
    let s := strftime now (time_fmt cfg) in
    let blink := blink_of cfg now in
    let left_alloc_max := left_alloc_max_of cfg dev s in
    let temp_c := get_cpu_temp_c (sysfs_text w) (vcgencmd_out w) in
    let '(temp_txt, left_reserved) := temp_layout cfg env left_alloc_max temp_c in
    let '(st, ev_swipe) := swipe_step cfg dev st w s temp_txt left_reserved in
    if existsb event_raised ev_swipe
    then (st, ev_dim ++ ev_sparkle ++ ev_ticker ++ ev_swipe)
    else
      (st,
       ev_dim ++ ev_sparkle ++ ev_ticker ++ ev_swipe
       ++ [Normal (normal_frame cfg dev now s blink temp_txt left_reserved);
           Idle (1 # 5)]).

(** The loop over what successive iterations read; it ends at the first
    iteration that sees [stop] set, or with the pass that raised. *)
Fixpoint main_loop (cfg : config) (dev : device) (env : environ) (st : state)
  (ws : list world) : list event :=
  match ws with
  | [] => []
  | w :: rest =>
      if stop_at_loop w then []
      else
        let '(st', evs) := main_iteration cfg dev env st w in
        if existsb event_raised evs then evs
        else evs ++ main_loop cfg dev env st' rest
  end.


End Main.

(** ** A small runtime to run the model on examples

    [int()] on ASCII text as Python reads it (white space around, a sign,
    digits with single underscores between them); [float()] on fixed-point
    text and a [str()] of at most six decimals; glyphs four columns wide and
    eight rows high; [strftime] with the directives [%H], [%M], [%S] and
    [%%]. *)

Module Demo.

Definition digit_of (c : ascii) : option Z :=
  let n := nat_of_ascii c in
  if ((48 <=? n) && (n <=? 57))%nat then Some (Z.of_nat n - 48) else None.

(** Digits with single underscores between them; [acc] is the value so far
    and [after_digit] tells whether the last character was a digit. *)
Fixpoint digits_value (s : string) (acc : Z) (after_digit : bool) : option Z :=
  match s with
  | EmptyString => if after_digit then Some acc else None
  | String c rest =>
      match digit_of c with
      | Some d => digits_value rest (10 * acc + d) true
      | None =>
          if Ascii.eqb c "_" && after_digit then digits_value rest acc false
          else None
      end
  end.

(** The white space [int()] and [float()] skip around a number. *)
Definition is_c_space (c : ascii) : bool :=
  let n := nat_of_ascii c in
  ((9 <=? n) && (n <=? 13) || (n =? 32))%nat.

Definition trim (s : string) : string :=
  Py.rstrip_of is_c_space (Py.lstrip_of is_c_space s).

Definition int (s : string) : option Z :=
  match trim s with
  | String "-" rest => option_map Z.opp (digits_value rest 0 false)
  | String "+" rest => digits_value rest 0 false
  | body => digits_value body 0 false
  end.

(** The number of digits of a digit string with underscores. *)
Fixpoint count_digits (s : string) : nat :=
  match s with
  | EmptyString => O
  | String c rest =>
      match digit_of c with
      | Some _ => S (count_digits rest)
      | None => count_digits rest
      end
  end.

(** [digits], [digits.], [.digits] or [digits.digits]; exponents, [inf] and
    [nan] are left out. *)
Definition unsigned_float (s : string) : option Q :=
  match Py.split "." s with
  | [a] => option_map inject_Z (digits_value a 0 false)
  | [a; b] =>
      let int_part := match a with
                      | EmptyString => match b with
                                       | EmptyString => None
                                       | _ => Some 0
                                       end
                      | _ => digits_value a 0 false
                      end in
      let frac_part := match b with
                       | EmptyString => Some 0
                       | _ => digits_value b 0 false
                       end in
      match int_part, frac_part with
      | Some ip, Some fp =>
          let scale := 10 ^ Z.of_nat (count_digits b) in
          Some (Qred (Qmake (ip * scale + fp) (Z.to_pos scale)))
      | _, _ => None
      end
  | _ => None
  end.

Definition float (s : string) : option Q :=
  match trim s with
  | String "-" rest => option_map Qopp (unsigned_float rest)
  | String "+" rest => unsigned_float rest
  | body => unsigned_float body
  end.

(** Six decimals, trailing zeros dropped, at least one kept. *)
Fixpoint drop_trailing_zeros (s : string) : string :=
  match s with
  | EmptyString => EmptyString
  | String c rest =>
      match drop_trailing_zeros rest with
      | EmptyString => if Ascii.eqb c "0" then EmptyString else String c EmptyString
      | r => String c r
      end
  end.

Fixpoint zeros (n : nat) : string :=
  match n with
  | O => EmptyString
  | S k => String "0" (zeros k)
  end.

Definition float_str (x : Q) : string :=
  let m := Qfloor (Qabs x * 1000000) in
  let frac := Py.str_of_int (m mod 1000000) in
  let frac := (zeros (6 - String.length frac) ++ frac)%string in
  let frac := match drop_trailing_zeros frac with
              | EmptyString => "0"
              | r => r
              end in
  ((if Qlt_le_dec x 0 then "-" else "") ++ Py.str_of_int (m / 1000000) ++ "." ++ frac)%string.

Definition glyph_textsize (txt : string) (f : font) : Z * Z :=
  (4 * Z.of_nat (String.length txt), 8).

Fixpoint format_time (dt : datetime) (fmt : string) : string :=
  match fmt with
  | String "%" (String d rest) =>
      let field :=
        match d with
        | "H"%char => pad2 (hour dt)
        | "M"%char => pad2 (minute dt)
        | "S"%char => pad2 (second dt)
        | "%"%char => "%"
        | _ => String "%" (String d EmptyString)
        end in
      (field ++ format_time dt rest)%string
  | String c rest => String c (format_time dt rest)
  | EmptyString => EmptyString
  end.

Definition runtime : Runtime := {|
  py_int := int;
  py_float := float;
  str_of_float := float_str;
  textsize := glyph_textsize;
  strftime := format_time
|}.

End Demo.

(** Sunday 10 August 2025 at the given time of day, for the examples. *)
Definition on_2025_08_10 (h m s us : Z) : datetime := {|
  year := 2025; month := 8; day := 10; weekday := 6;
  hour := h; minute := m; second := s; microsecond := us
|}.

Definition display_32x8 : device := {| width := 32; height := 8 |}.

(** The empty environment, the state [main] enters the loop with at midday
    (day brightness 12), and an iteration that reads the clock at the given time,
    a sensor file of 48.312 degrees, and no shutdown request. *)
Definition unset_env : environ := fun _ => None.

Definition first_state : state := {|
  current_brt := 12;
  last_minute_for_dim := -1;
  last_rendered_minute := None;
  last_ticker_ts := Binary64.float_of_Z 0
|}.

Definition reading_at (h m s us : Z) : world := {|
  stop_at_loop := false;
  clock := on_2025_08_10 h m s us;
  mono_check := Binary64.float_of_Z 1;
  mono_done := Binary64.float_of_Z 1;
  sysfs_text := Some "48312";
  vcgencmd_out := None;
  stop_in_ticker := fun _ => false;
  stop_in_swipe := fun _ => false
|}.

(** ** Notions the statements use *)

(** Minutes since midnight of an hour/minute pair and of a datetime. *)
Definition minutes_of (hm : Z * Z) : Z := fst hm * 60 + snd hm.
Definition minute_of_day (now : datetime) : Z := hour now * 60 + minute now.

(** Where the time goes when only the display and the time decide. *)
Definition time_left (dev : device) (w_time : Z) : Z := Z.max 0 (width dev - w_time).

(** A lit pixel, as opposed to a text. *)
Definition is_point (op : draw_op) : bool :=
  match op with
  | Point _ _ => true
  | Text _ _ _ _ => false
  end.

(** The points a frame draws between its first text (the hours) and the
    next one (the minutes): the colon. *)
Fixpoint after_first_text (ops : list draw_op) : list draw_op :=
  match ops with
  | [] => []
  | Text _ _ _ _ :: rest => rest
  | Point _ _ :: rest => after_first_text rest
  end.

Fixpoint points_before_text (ops : list draw_op) : list draw_op :=
  match ops with
  | [] => []
  | Text _ _ _ _ :: _ => []
  | Point x y :: rest => Point x y :: points_before_text rest
  end.

Definition colon_ops (ops : list draw_op) : list draw_op :=
  points_before_text (after_first_text ops).

(** Whether a frame shows the colon. *)
Definition colon_lit (ops : list draw_op) : bool :=
  match colon_ops ops with
  | [] => false
  | _ :: _ => true
  end.

(** Microseconds since the start of the minute. *)
Definition elapsed_us (now : datetime) : Z := second now * 1000000 + microsecond now.

(** The count the specification gives for the seconds bar: the floor of
    [((s + u/1e6)/60) * width], in exact arithmetic. *)
Definition seconds_bar_floor (now : datetime) (width : Z) : Z :=
  Qfloor ((inject_Z (second now) + inject_Z (microsecond now) / 1000000) / 60
          * inject_Z width)%Q.


(** The instant [e] microseconds into the minute, and the instants around
    the pixel boundaries of a 32 column bar (one pixel every 1.875 s): one
    microsecond before each boundary, the boundary, one microsecond after. *)
Definition at_elapsed (e : Z) : datetime :=
  on_2025_08_10 12 34 (e / 1000000) (e mod 1000000).

Definition boundaries_32 : list Z :=
  flat_map (fun k => let e := 1875000 * Z.of_nat k in [e - 1; e; e + 1]) (seq 1 31).

(** The events hold no run of the date ticker. *)
Definition no_ticker (evs : list event) : Prop :=
  forall txt run, ~ In (Ticker txt run) evs.




(** The characters the 3x5 font has a glyph for. *)
Definition supported (ch : ascii) : bool :=
  match DIGITS_3x5 ch with
  | Some _ => true
  | None => false
  end.

(** The string without its unsupported characters. *)
Definition keep_supported (txt : string) : string :=
  string_of_list_ascii (filter supported (list_ascii_of_string txt)).

(** The glyphs of the supported characters, one every [3 + spacing] columns. *)
Fixpoint draw_run (cx y spacing : Z) (chars : list ascii) : list draw_op :=
  match chars with
  | [] => []
  | ch :: rest =>
      match DIGITS_3x5 ch with
      | Some glyph => draw_glyph cx y glyph ++ draw_run (cx + 3 + spacing) y spacing rest
      | None => draw_run cx y spacing rest
      end
  end.

(** Whether the last character of a text is an unsupported one that follows
    at least one supported character. *)
Definition trailing_unsupported (chars : list ascii) : bool :=
  existsb supported chars && negb (supported (last chars "0"%char)).

(** Whether a text ends with a character of the 3x5 font. *)
Definition ends_supported (chars : list ascii) : bool :=
  supported (last chars " "%char).

(** The sentence of the specification on the width, read for every string:
    the width is that of the string without its unsupported characters. A
    string that ends with an unsupported character breaks it. *)
Definition width_ignores_unsupported : Prop :=
  forall (txt : string) (spacing : Z),
    fst (small35_text_size txt spacing)
    = fst (small35_text_size (keep_supported txt) spacing).




(** What the widget needs of the text of a rounded temperature: only
    characters of the 3x5 font, and one to three of them. *)
Definition temp_text_ok (r : Z) : bool :=
  let s := Py.str_of_int r in
  forallb supported (list_ascii_of_string s)
  && (1 <=? String.length s)%nat && (String.length s <=? 3)%nat.

(** The width the source computes: three columns per supported character,
    and the spacing after each of them that is not the last character of the
    text, supported or not. *)
Fixpoint width_run (spacing : Z) (chars : list ascii) : Z :=
  match chars with
  | [] => 0
  | ch :: rest =>
      (if supported ch then 3 + (match rest with [] => 0 | _ :: _ => spacing end) else 0)
      + width_run spacing rest
  end.

Section Notions.
Context {R : Runtime}.

(** The width [w_time] the renderer computes for a time string. *)
Definition time_width (timestr : string) (f : font) (gap colon_w : Z) : Z :=
  fst (textsize (fst (hh_mm timestr)) f) + gap + colon_w + gap
  + fst (textsize (snd (hh_mm timestr)) f).

(** The row [y] of the time. *)
Definition time_top (dev : device) (timestr : string) (f : font) : Z :=
  Z.max 0 ((height dev - snd (textsize (fst (hh_mm timestr)) f)) / 2).

(** The rows of the two colon dots. *)
Definition colon_rows (dev : device) (timestr : string) (f : font) (colon_vgap : Z)
  : Z * Z :=
  let h := snd (textsize (fst (hh_mm timestr)) f) in
  let y := time_top dev timestr f in
  let t1 := y + Z.max 0 ((h - 1 - colon_vgap) / 2) in
  (t1, Z.min (y + h - 1) (t1 + colon_vgap)).

(** The time string and the temperature layout of an iteration. *)
Definition iteration_time (cfg : config) (w : world) : string :=
  strftime (clock w) (time_fmt cfg).

Definition iteration_layout (cfg : config) (dev : device) (env : environ) (w : world)
  : option string * Z :=
  temp_layout cfg env (left_alloc_max_of cfg dev (iteration_time cfg w))
    (get_cpu_temp_c (sysfs_text w) (vcgencmd_out w)).

(** The static frame an iteration ends with. *)
Definition iteration_frame (cfg : config) (dev : device) (env : environ) (w : world)
  : list draw_op :=
  normal_frame cfg dev (clock w) (iteration_time cfg w) (blink_of cfg (clock w))
    (fst (iteration_layout cfg dev env w)) (snd (iteration_layout cfg dev env w)).

(** The colon rule read for every frame that shows the time, static or
    swipe: lit exactly when [blink] is off. The swipe frames break it. *)
Definition colon_follows_parity_in_every_frame : Prop :=
  forall (cfg : config) (dev : device) (env : environ) (st : state) (w : world)
         (ops : list draw_op),
    (In (Normal ops) (snd (main_iteration cfg dev env st w))
     \/ exists run, In (Swipe run) (snd (main_iteration cfg dev env st w))
                    /\ In (Frame ops) run) ->
    colon_lit ops = negb (blink_of cfg (clock w)).

End Notions.

(** * Properties *)

(** ** The time window *)

(** C1. With [start <= end] in minutes since midnight, [_in_window] holds
    exactly when [start <= now < end]; with [start > end] (a window across
    midnight) exactly when [now >= start] or [now < end]. Only the hour and
    the minute of [now] are looked at. *)
Theorem in_window_spec :
  forall (now : datetime) (start_hm end_hm : Z * Z),
    (minutes_of start_hm <= minutes_of end_hm ->
       (_in_window now start_hm end_hm = true <->
        minutes_of start_hm <= minute_of_day now < minutes_of end_hm))
    /\ (minutes_of start_hm > minutes_of end_hm ->
       (_in_window now start_hm end_hm = true <->
        minute_of_day now >= minutes_of start_hm
        \/ minute_of_day now < minutes_of end_hm))
    /\ (forall now' : datetime,
          hour now' = hour now -> minute now' = minute now ->
          _in_window now' start_hm end_hm = _in_window now start_hm end_hm).
Proof.
  intros now start_hm end_hm.
  unfold _in_window, minutes_of, minute_of_day.
  set (s := fst start_hm * 60 + snd start_hm).
  set (e := fst end_hm * 60 + snd end_hm).
  split; [|split].
  - intros Hle. destruct (Z.leb_spec s e) as [_|Hgt]; [|lia].
    rewrite andb_true_iff, Z.leb_le, Z.ltb_lt. tauto.
  - intros Hgt. destruct (Z.leb_spec s e) as [Hle|_]; [lia|].
    rewrite orb_true_iff, Z.geb_le, Z.ltb_lt. lia.
  - intros now' Hh Hm. rewrite Hh, Hm. reflexivity.
Qed.

(** The night window 22:30 to 07:00 of the defaults: 23:00 is inside, 07:00
    and 12:00 are outside (the end is exclusive). *)
Lemma in_window_night_scenario :
  _in_window (on_2025_08_10 23 0 0 0) (22, 30) (7, 0) = true
  /\ _in_window (on_2025_08_10 7 0 0 0) (22, 30) (7, 0) <> true
  /\ _in_window (on_2025_08_10 12 0 0 0) (22, 30) (7, 0) <> true.
Proof.
  split; [|split].
  - apply (proj1 (proj2 (in_window_spec (on_2025_08_10 23 0 0 0) (22, 30) (7, 0)))).
    + vm_compute. reflexivity.
    + left. vm_compute. discriminate.
  - intros H.
    apply (proj1 (proj2 (in_window_spec (on_2025_08_10 7 0 0 0) (22, 30) (7, 0)))) in H.
    + unfold minute_of_day, minutes_of in H. simpl in H. lia.
    + vm_compute. reflexivity.
  - intros H.
    apply (proj1 (proj2 (in_window_spec (on_2025_08_10 12 0 0 0) (22, 30) (7, 0)))) in H.
    + unfold minute_of_day, minutes_of in H. simpl in H. lia.
    + vm_compute. reflexivity.
Defined.

(** ** Configuration parsing *)

Section ConfigProperties.
Context {R : Runtime}.

Lemma parse_hhmm_try_some (s : string) (r : Z * Z) :
  parse_hhmm_try s = Some r <->
  exists a b H M, Py.split ":" s = [a; b] /\ py_int a = Some H /\ py_int b = Some M
                  /\ r = (H mod 24, M mod 60).
Proof.
  unfold parse_hhmm_try. split.
  - destruct (Py.split ":" s) as [|a [|b [|c l]]]; try discriminate.
    destruct (py_int a) as [H|] eqn:Ha; try discriminate.
    destruct (py_int b) as [M|] eqn:Hb; try discriminate.
    intros E. injection E as <-. exists a, b, H, M. auto.
  - intros (a & b & H & M & -> & -> & -> & ->). reflexivity.
Qed.

Lemma parse_hhmm_try_none (s : string) :
  parse_hhmm_try s = None <->
  ~ exists a b H M, Py.split ":" s = [a; b] /\ py_int a = Some H /\ py_int b = Some M.
Proof.
  split.
  - intros E (a & b & H & M & Hs & Ha & Hb).
    assert (parse_hhmm_try s = Some (H mod 24, M mod 60)) as E'
      by (apply parse_hhmm_try_some; exists a, b, H, M; auto).
    congruence.
  - intros N. destruct (parse_hhmm_try s) as [r|] eqn:E; [|reflexivity].
    apply parse_hhmm_try_some in E. destruct E as (a & b & H & M & Hs & Ha & Hb & _).
    exfalso. apply N. exists a, b, H, M. auto.
Qed.

(** C10. A string ["H:M"] whose two parts both parse as integers is never
    answered with the fallback: [_parse_hhmm] returns [(H mod 24, M mod 60)],
    a pair in [0,23] x [0,59], however far out of range [H] and [M] are.
    The [except] branch is taken exactly when the string does not split at
    [":"] into two parts that both parse. *)
Theorem parse_hhmm_wraps :
  forall (s : string) (fallback : Z * Z),
    (forall a b H M,
        Py.split ":" s = [a; b] -> py_int a = Some H -> py_int b = Some M ->
        parse_hhmm_try s = Some (H mod 24, M mod 60)
        /\ _parse_hhmm s fallback = (H mod 24, M mod 60)
        /\ 0 <= H mod 24 <= 23 /\ 0 <= M mod 60 <= 59)
    /\ (parse_hhmm_try s = None <->
        ~ exists a b H M,
            Py.split ":" s = [a; b] /\ py_int a = Some H /\ py_int b = Some M)
    /\ (parse_hhmm_try s = None -> _parse_hhmm s fallback = fallback)
    /\ (forall r, parse_hhmm_try s = Some r ->
                  _parse_hhmm s fallback = r
                  /\ 0 <= fst r <= 23 /\ 0 <= snd r <= 59).
Proof.
  intros s fallback. split; [|split; [|split]].
  - intros a b H M Hs Ha Hb.
    assert (parse_hhmm_try s = Some (H mod 24, M mod 60)) as E
      by (apply parse_hhmm_try_some; exists a, b, H, M; auto).
    unfold _parse_hhmm. rewrite E.
    pose proof (Z.mod_pos_bound H 24). pose proof (Z.mod_pos_bound M 60).
    repeat split; lia.
  - apply parse_hhmm_try_none.
  - intros E. unfold _parse_hhmm. rewrite E. reflexivity.
  - intros r E. unfold _parse_hhmm. rewrite E.
    apply parse_hhmm_try_some in E. destruct E as (a & b & H & M & _ & _ & _ & ->).
    pose proof (Z.mod_pos_bound H 24). pose proof (Z.mod_pos_bound M 60).
    simpl. repeat split; lia.
Qed.

End ConfigProperties.

(** "25:99" and "-1:5" are wrapped to 01:39 and 23:05, not rejected. *)
Lemma parse_hhmm_out_of_range_examples :
  @_parse_hhmm Demo.runtime "25:99" (22, 30) = (1, 39)
  /\ @_parse_hhmm Demo.runtime "-1:5" (22, 30) = (23, 5).
Proof.
  split.
  - exact (proj1 (proj2 (proj1 (@parse_hhmm_wraps Demo.runtime "25:99" (22, 30))
                           "25" "99" 25 99 eq_refl eq_refl eq_refl))).
  - exact (proj1 (proj2 (proj1 (@parse_hhmm_wraps Demo.runtime "-1:5" (22, 30))
                           "-1" "5" (-1) 5 eq_refl eq_refl eq_refl))).
Defined.

Section EnvProperties.
Context {R : Runtime}.

Lemma getenv_set (env : environ) (name default s : string) :
  env name = Some s -> getenv env name default = s.
Proof. intros E. unfold getenv. rewrite E. reflexivity. Qed.

Lemma getenv_unset (env : environ) (name default : string) :
  env name = None -> getenv env name default = default.
Proof. intros E. unfold getenv. rewrite E. reflexivity. Qed.

(** C8. A value that [int()] or [float()] rejects makes [_env_int],
    [_env_float] and [_env_bool] return their default (for [_env_bool] its
    truth value); a string that does not split into two integers makes
    [_parse_hhmm] return its fallback; an unset variable gives the default
    too, and the unset night window of [main] is 22:30 to 07:00. The helpers
    return in every case: the error is caught, never passed on. *)
Theorem env_helpers_default_on_failure :
  forall (env : environ) (name : string),
    (forall s, env name = Some s ->
       (py_int s = None ->
        forall d, _env_int env name d = d
                  /\ _env_bool env name d = Py.bool_of_int d)
       /\ (py_float s = None -> forall d, _env_float env name d = d))
    /\ (forall s fallback,
          (forall a b, Py.split ":" s = [a; b] -> py_int a = None \/ py_int b = None) ->
          _parse_hhmm s fallback = fallback)
    /\ (env name = None ->
        (forall d, (forall v, py_int (Py.str_of_int d) = Some v -> v = d) ->
                   _env_int env name d = d
                   /\ _env_bool env name d = Py.bool_of_int d)
        /\ (forall d, (forall v, py_float (str_of_float d) = Some v -> v = d) ->
                      _env_float env name d = d))
    /\ (env "LED_NIGHT_FROM" = None -> py_int "22" = Some 22 -> py_int "30" = Some 30 ->
        night_from (load_config env) = (22, 30))
    /\ (env "LED_NIGHT_TO" = None -> py_int "07" = Some 7 -> py_int "00" = Some 0 ->
        night_to (load_config env) = (7, 0)).
Proof.
  intros env name. split; [|split; [|split; [|split]]].
  - intros s Hset. split.
    + intros Hbad d. unfold _env_int, _env_bool.
      rewrite (getenv_set _ _ _ _ Hset), Hbad. auto.
    + intros Hbad d. unfold _env_float.
      rewrite (getenv_set _ _ _ _ Hset), Hbad. reflexivity.
  - intros s fallback Hbad. unfold _parse_hhmm.
    destruct (parse_hhmm_try s) as [r|] eqn:E; [|reflexivity].
    apply parse_hhmm_try_some in E. destruct E as (a & b & H & M & Hs & Ha & Hb & _).
    destruct (Hbad a b Hs); congruence.
  - intros Hunset. split.
    + intros d Hround. unfold _env_int, _env_bool.
      rewrite (getenv_unset _ _ _ Hunset).
      destruct (py_int (Py.str_of_int d)) as [v|] eqn:E; [|auto].
      rewrite (Hround v eq_refl). auto.
    + intros d Hround. unfold _env_float.
      rewrite (getenv_unset _ _ _ Hunset).
      destruct (py_float (str_of_float d)) as [v|] eqn:E; [|auto].
      rewrite (Hround v eq_refl). auto.
  - intros Hunset H22 H30. simpl. rewrite (getenv_unset _ _ _ Hunset).
    unfold _parse_hhmm, parse_hhmm_try. simpl. rewrite H22, H30. reflexivity.
  - intros Hunset H07 H00. simpl. rewrite (getenv_unset _ _ _ Hunset).
    unfold _parse_hhmm, parse_hhmm_try. simpl. rewrite H07, H00. reflexivity.
Qed.

End EnvProperties.

(** [LED_CASCADED=four], [LED_TICKER_EVERY=soon], [LED_AUTO_DIM=yes] and a
    night boundary [late] all end at the defaults, and so does an empty
    environment. *)
Lemma env_helpers_examples :
  let bad : environ := fun name =>
    if String.eqb name "LED_CASCADED" then Some "four"
    else if String.eqb name "LED_TICKER_EVERY" then Some "soon"
    else if String.eqb name "LED_AUTO_DIM" then Some "yes"
    else None in
  let unset : environ := fun _ => None in
  @_env_int Demo.runtime bad "LED_CASCADED" 4 = 4
  /\ @_env_float Demo.runtime bad "LED_TICKER_EVERY" 60 = 60%Q
  /\ @_env_bool Demo.runtime bad "LED_AUTO_DIM" 1 = true
  /\ @_parse_hhmm Demo.runtime "late" (22, 30) = (22, 30)
  /\ @_env_int Demo.runtime unset "LED_CASCADED" 4 = 4
  /\ @_env_float Demo.runtime unset "LED_TICKER_EVERY" 60 = 60%Q
  /\ night_from (@load_config Demo.runtime unset) = (22, 30)
  /\ night_to (@load_config Demo.runtime unset) = (7, 0).
Proof.
  intros bad unset.
  pose proof (@env_helpers_default_on_failure Demo.runtime bad "LED_CASCADED") as Hc.
  pose proof (@env_helpers_default_on_failure Demo.runtime bad "LED_TICKER_EVERY") as Ht.
  pose proof (@env_helpers_default_on_failure Demo.runtime bad "LED_AUTO_DIM") as Ha.
  pose proof (@env_helpers_default_on_failure Demo.runtime unset "LED_CASCADED") as Hu.
  split; [|split; [|split; [|split; [|split; [|split; [|split]]]]]].
  - exact (proj1 (proj1 (proj1 Hc "four" eq_refl) eq_refl 4)).
  - exact (proj2 (proj1 Ht "soon" eq_refl) eq_refl 60%Q).
  - exact (proj2 (proj1 (proj1 Ha "yes" eq_refl) eq_refl 1)).
  - apply (proj1 (proj2 Hc)). intros a b E. vm_compute in E. discriminate.
  - apply (proj1 (proj1 (proj2 (proj2 Hu)) eq_refl)).
    intros v E. vm_compute in E. congruence.
  - apply (proj2 (proj1 (proj2 (proj2 Hu)) eq_refl)).
    intros v E. vm_compute in E. congruence.
  - exact (proj1 (proj2 (proj2 (proj2 Hu))) eq_refl eq_refl eq_refl).
  - exact (proj2 (proj2 (proj2 (proj2 Hu))) eq_refl eq_refl eq_refl).
Defined.

(** ** The time renderer *)

Section TimeProperties.
Context {R : Runtime}.

Lemma shrink_left_reserved_spec (dev : device) (w_time left_reserved : Z) :
  0 <= left_reserved ->
  let r := shrink_left_reserved dev w_time left_reserved in
  0 <= r <= left_reserved
  /\ Z.max 0 (width dev - (r + w_time)) + r = time_left dev w_time.
Proof.
  intros Hpos. unfold shrink_left_reserved, time_left. cbv zeta.
  destruct (Z.gtb_spec (left_reserved + w_time) (width dev)); lia.
Qed.

(** What the renderer draws, with the positions spelled out. *)
Lemma draw_time_layout (dev : device) (timestr : string) (f : font) (blink : bool)
  (left_reserved gap colon_w colon_vgap time_offset : Z) :
  0 <= left_reserved ->
  let x := time_left dev (time_width timestr f gap colon_w) + time_offset in
  let y := time_top dev timestr f in
  let cx := x + fst (textsize (fst (hh_mm timestr)) f) + gap in
  draw_time_with_custom_colon dev timestr f blink left_reserved gap colon_w
    colon_vgap time_offset
  = Text x y (fst (hh_mm timestr)) f
    :: (if blink then []
        else [Point cx (fst (colon_rows dev timestr f colon_vgap));
              Point cx (snd (colon_rows dev timestr f colon_vgap))])
    ++ [Text (cx + colon_w + gap) y (snd (hh_mm timestr)) f].
Proof.
  intros Hpos. cbv zeta.
  unfold draw_time_with_custom_colon, time_width, colon_rows, time_top.
  destruct (hh_mm timestr) as [hh mm]. cbn [fst snd].
  destruct (textsize hh f) as [w_h h]. destruct (textsize mm f) as [w_m h'].
  cbn [fst snd].
  set (w_time := w_h + gap + colon_w + gap + w_m).
  destruct (shrink_left_reserved_spec dev w_time left_reserved Hpos) as [_ Hx].
  cbv zeta in Hx.
  set (r := shrink_left_reserved dev w_time left_reserved) in *.
  replace (Z.max 0 (width dev - (r + w_time)) + time_offset + r)
    with (time_left dev w_time + time_offset) by lia.
  destruct blink; reflexivity.
Qed.

(** C2. With [left_reserved >= 0]: when the reservation and the time do
    not fit together, the reservation becomes [max(0, width - w_time)],
    otherwise it stays; it never grows. The hours are then drawn at
    [max(0, width - w_time)] (at [time_offset = 0]), whatever was reserved, so
    two reservations give the same drawing; and a time that fits the display
    is drawn from [width - w_time >= 0] to the right edge. *)
Theorem left_reserved_only_shrinks :
  forall (dev : device) (timestr : string) (f : font) (blink : bool)
         (left_reserved gap colon_w colon_vgap : Z),
    0 <= left_reserved ->
    let w_time := time_width timestr f gap colon_w in
    let r := shrink_left_reserved dev w_time left_reserved in
    (left_reserved + w_time > width dev -> r = Z.max 0 (width dev - w_time))
    /\ (left_reserved + w_time <= width dev -> r = left_reserved)
    /\ 0 <= r <= left_reserved
    /\ (exists rest,
          draw_time_with_custom_colon dev timestr f blink left_reserved gap colon_w
            colon_vgap 0
          = Text (Z.max 0 (width dev - w_time)) (time_top dev timestr f)
              (fst (hh_mm timestr)) f :: rest)
    /\ (forall other, 0 <= other ->
          draw_time_with_custom_colon dev timestr f blink other gap colon_w colon_vgap 0
          = draw_time_with_custom_colon dev timestr f blink left_reserved gap colon_w
              colon_vgap 0)
    /\ (w_time <= width dev ->
        0 <= Z.max 0 (width dev - w_time)
        /\ Z.max 0 (width dev - w_time) + w_time = width dev).
Proof.
  intros dev timestr f blink left_reserved gap colon_w colon_vgap Hpos w_time r.
  split; [|split; [|split; [|split; [|split]]]].
  - intros Hbig. subst r. unfold shrink_left_reserved.
    destruct (Z.gtb_spec (left_reserved + w_time) (width dev)); [reflexivity|lia].
  - intros Hfit. subst r. unfold shrink_left_reserved.
    destruct (Z.gtb_spec (left_reserved + w_time) (width dev)); [lia|reflexivity].
  - apply (shrink_left_reserved_spec dev w_time left_reserved Hpos).
  - rewrite (draw_time_layout dev timestr f blink left_reserved gap colon_w
               colon_vgap 0 Hpos).
    cbv zeta. fold w_time. unfold time_left. rewrite Z.add_0_r. eauto.
  - intros other Hother.
    rewrite (draw_time_layout dev timestr f blink left_reserved gap colon_w
               colon_vgap 0 Hpos).
    rewrite (draw_time_layout dev timestr f blink other gap colon_w
               colon_vgap 0 Hother).
    reflexivity.
  - lia.
Qed.

End TimeProperties.

(** "12:34" is 19 columns wide on a 32 column display; a reservation of 20
    columns is cut to 13 and the hours still start at column 13. *)
Lemma left_reserved_example :
  @shrink_left_reserved display_32x8 (@time_width Demo.runtime "12:34" TINY_FONT 1 1) 20 = 13
  /\ exists rest,
       @draw_time_with_custom_colon Demo.runtime display_32x8 "12:34" TINY_FONT false
         20 1 1 2 0
       = Text 13 0 "12" TINY_FONT :: rest.
Proof.
  pose proof (@left_reserved_only_shrinks Demo.runtime display_32x8 "12:34" TINY_FONT
                false 20 1 1 2 ltac:(lia)) as H.
  cbv zeta in H. destruct H as (Hbig & _ & _ & Hdraw & _).
  split.
  - apply Hbig. vm_compute. reflexivity.
  - exact Hdraw.
Defined.

(** ** The shape of one iteration *)

Section IterationShape.
Context {R : Runtime}.

Lemma main_iteration_unfold (cfg : config) (dev : device) (env : environ)
  (st : state) (w : world) :
  let d := auto_dim_step cfg st (clock w) in
  let t := ticker_step cfg dev (fst d) w in
  let l := iteration_layout cfg dev env w in
  let sw := swipe_step cfg dev (fst t) w (iteration_time cfg w) (fst l) (snd l) in
  main_iteration cfg dev env st w
  = if existsb event_raised (snd t)
    then (fst t, snd d ++ sparkle_step cfg (clock w) ++ snd t)
    else if existsb event_raised (snd sw)
         then (fst sw, snd d ++ sparkle_step cfg (clock w) ++ snd t ++ snd sw)
         else (fst sw,
               snd d ++ sparkle_step cfg (clock w) ++ snd t ++ snd sw
               ++ [Normal (iteration_frame cfg dev env w); Idle (1 # 5)]).
Proof.
  cbv zeta. unfold main_iteration, iteration_frame, iteration_layout, iteration_time.
  destruct (auto_dim_step cfg st (clock w)) as [st1 ev_dim]. cbn [fst snd].
  destruct (ticker_step cfg dev st1 w) as [st2 ev_ticker]. cbn [fst snd].
  destruct (existsb event_raised ev_ticker); [reflexivity|].
  destruct (temp_layout cfg env _ _) as [temp_txt left_reserved]. cbn [fst snd].
  destruct (swipe_step cfg dev st2 w _ temp_txt left_reserved) as [st3 ev_swipe].
  cbn [fst snd]. destruct (existsb event_raised ev_swipe); reflexivity.
Qed.

Lemma auto_dim_step_events (cfg : config) (st : state) (now : datetime) (e : event) :
  In e (snd (auto_dim_step cfg st now)) -> exists level, e = Contrast level.
Proof.
  unfold auto_dim_step.
  destruct (auto_dim cfg && negb (minute now =? last_minute_for_dim st)); [|intros []].
  destruct (negb (brightness_target cfg now =? current_brt st)); [|intros []].
  intros [<-|[]]. eauto.
Qed.

Lemma auto_dim_step_ticker_ts (cfg : config) (st : state) (now : datetime) :
  last_ticker_ts (fst (auto_dim_step cfg st now)) = last_ticker_ts st.
Proof.
  unfold auto_dim_step.
  destruct (auto_dim cfg && negb (minute now =? last_minute_for_dim st)); [|reflexivity].
  destruct (negb (brightness_target cfg now =? current_brt st)); reflexivity.
Qed.

Lemma sparkle_step_events (cfg : config) (now : datetime) (e : event) :
  In e (sparkle_step cfg now) -> exists a b c, e = Sparkle a b c.
Proof.
  unfold sparkle_step. destruct (sparkle_on_hour cfg && on_the_hour now); [|intros []].
  intros [<-|[]]. eauto.
Qed.

Lemma ticker_step_events (cfg : config) (dev : device) (st : state) (w : world)
  (e : event) :
  In e (snd (ticker_step cfg dev st w)) -> exists txt run, e = Ticker txt run.
Proof.
  unfold ticker_step.
  destruct (ticker_due cfg st w && negb (on_the_hour (clock w))); [|intros []].
  intros [<-|[]]. eauto.
Qed.

Lemma swipe_step_events (cfg : config) (dev : device) (st : state) (w : world)
  (s : string) (temp_txt : option string) (left_reserved : Z) (e : event) :
  In e (snd (swipe_step cfg dev st w s temp_txt left_reserved)) ->
  swipe_due cfg st (clock w) = true
  /\ e = Swipe (minute_swipe dev s (time_font cfg) false left_reserved (colon_vgap cfg)
                  temp_txt (minute_swipe_px cfg) (minute_swipe_dt cfg) (stop_in_swipe w)).
Proof.
  unfold swipe_step. destruct (swipe_due cfg st (clock w)); [|intros []].
  intros [<-|[]]. auto.
Qed.

Lemma swipe_step_ticker_ts (cfg : config) (dev : device) (st : state) (w : world)
  (s : string) (temp_txt : option string) (left_reserved : Z) :
  last_ticker_ts (fst (swipe_step cfg dev st w s temp_txt left_reserved))
  = last_ticker_ts st.
Proof.
  unfold swipe_step. destruct (swipe_due cfg st (clock w)); [|reflexivity].
  cbn [fst]. destruct (raised _); reflexivity.
Qed.


(** The events of an iteration, whatever its end: the steps up to the
    ticker, then, unless the ticker raised, the swipe and, unless the swipe
    raised, the static frame and the 0.2 s sleep. *)
Lemma main_iteration_events (cfg : config) (dev : device) (env : environ)
  (st : state) (w : world) :
  let d := auto_dim_step cfg st (clock w) in
  let t := ticker_step cfg dev (fst d) w in
  let l := iteration_layout cfg dev env w in
  let sw := swipe_step cfg dev (fst t) w (iteration_time cfg w) (fst l) (snd l) in
  snd (main_iteration cfg dev env st w)
  = snd d ++ sparkle_step cfg (clock w) ++ snd t
    ++ (if existsb event_raised (snd t) then []
        else snd sw
             ++ (if existsb event_raised (snd sw) then []
                 else [Normal (iteration_frame cfg dev env w); Idle (1 # 5)])).
Proof.
  pose proof (main_iteration_unfold cfg dev env st w) as E. cbv zeta in E |- *.
  rewrite E. clear E.
  destruct (existsb event_raised (snd (ticker_step _ _ _ _))); cbn [snd].
  - rewrite app_nil_r. reflexivity.
  - destruct (existsb event_raised (snd (swipe_step _ _ _ _ _ _ _))); cbn [snd].
    + rewrite app_nil_r. reflexivity.
    + reflexivity.
Qed.



(** The only static frame an iteration draws is its own. *)
Lemma main_iteration_normal (cfg : config) (dev : device) (env : environ)
  (st : state) (w : world) (ops : list draw_op) :
  In (Normal ops) (snd (main_iteration cfg dev env st w)) ->
  ops = iteration_frame cfg dev env w.
Proof.
  pose proof (main_iteration_events cfg dev env st w) as E. cbv zeta in E.
  rewrite E. clear E. rewrite !in_app_iff. intros [H|[H|[H|H]]].
  - apply auto_dim_step_events in H. destruct H as (? & H). discriminate.
  - apply sparkle_step_events in H. destruct H as (? & ? & ? & H). discriminate.
  - apply ticker_step_events in H. destruct H as (? & ? & H). discriminate.
  - destruct (existsb event_raised (snd (ticker_step _ _ _ _))); [destruct H|].
    apply in_app_or in H. destruct H as [H|H].
    + apply swipe_step_events in H. destruct H as (_ & H). discriminate.
    + destruct (existsb event_raised (snd (swipe_step _ _ _ _ _ _ _))); [destruct H|].
      destruct H as [H|[H|[]]]; [|discriminate]. injection H as <-. reflexivity.
Qed.

(** The swipe of an iteration, when it has one. *)
Lemma main_iteration_swipe (cfg : config) (dev : device) (env : environ)
  (st : state) (w : world) (run : list frame_ev) :
  In (Swipe run) (snd (main_iteration cfg dev env st w)) ->
  run = minute_swipe dev (iteration_time cfg w) (time_font cfg) false
          (snd (iteration_layout cfg dev env w)) (colon_vgap cfg)
          (fst (iteration_layout cfg dev env w)) (minute_swipe_px cfg)
          (minute_swipe_dt cfg) (stop_in_swipe w).
Proof.
  pose proof (main_iteration_events cfg dev env st w) as E. cbv zeta in E.
  rewrite E. clear E. rewrite !in_app_iff. intros [H|[H|[H|H]]].
  - apply auto_dim_step_events in H. destruct H as (? & H). discriminate.
  - apply sparkle_step_events in H. destruct H as (? & ? & ? & H). discriminate.
  - apply ticker_step_events in H. destruct H as (? & ? & H). discriminate.
  - destruct (existsb event_raised (snd (ticker_step _ _ _ _))); [destruct H|].
    apply in_app_or in H. destruct H as [H|H].
    + apply swipe_step_events in H. destruct H as (_ & H). injection H as ->.
      reflexivity.
    + destruct (existsb event_raised (snd (swipe_step _ _ _ _ _ _ _))); [destruct H|].
      destruct H as [H|[H|[]]]; discriminate.
Qed.

End IterationShape.

(** ** The colon *)

Lemma after_first_text_app (ps rest : list draw_op) (x y : Z) (t : string) (f : font) :
  Forall (fun op => is_point op = true) ps ->
  after_first_text (ps ++ Text x y t f :: rest) = rest.
Proof.
  induction 1 as [|p ps Hp _ IH]; [reflexivity|].
  destruct p; [exact IH|discriminate].
Qed.

Lemma points_before_text_app (ps rest : list draw_op) (x y : Z) (t : string) (f : font) :
  Forall (fun op => is_point op = true) ps ->
  points_before_text (ps ++ Text x y t f :: rest) = ps.
Proof.
  induction 1 as [|p ps Hp _ IH]; [reflexivity|].
  destruct p; [simpl; f_equal; exact IH|discriminate].
Qed.

Lemma draw_glyph_points (cx y : Z) (glyph : list string) :
  Forall (fun op => is_point op = true) (draw_glyph cx y glyph).
Proof.
  apply Forall_forall. intros op Hin. unfold draw_glyph in Hin.
  apply in_flat_map in Hin. destruct Hin as ([ry row] & _ & Hin).
  apply in_flat_map in Hin. destruct Hin as ([rx bit] & _ & Hin).
  destruct (Ascii.eqb bit "1"); [|destruct Hin].
  destruct Hin as [<-|[]]. reflexivity.
Qed.

Lemma draw_small35_step_points (n : nat) (y spacing : Z) (acc : Z * list draw_op)
  (ich : nat * ascii) :
  Forall (fun op => is_point op = true) (snd acc) ->
  Forall (fun op => is_point op = true) (snd (draw_small35_step n y spacing acc ich)).
Proof.
  destruct acc as [cx ops], ich as [i ch]. unfold draw_small35_step. cbn [snd].
  intros Hops. destruct (DIGITS_3x5 ch) as [glyph|]; [|exact Hops].
  destruct (negb (Z.of_nat i =? Z.of_nat n - 1)); cbn [snd];
    (apply Forall_app; split; [exact Hops|apply draw_glyph_points]).
Qed.

Lemma draw_small35_points (x y : Z) (txt : string) (spacing : Z) :
  Forall (fun op => is_point op = true) (draw_small35 x y txt spacing).
Proof.
  unfold draw_small35.
  generalize (String.length txt) as n. generalize (Py.enumerate txt) as l.
  assert (forall l n acc,
             Forall (fun op => is_point op = true) (snd acc) ->
             Forall (fun op => is_point op = true)
               (snd (fold_left (draw_small35_step n y spacing) l acc))) as H.
  { induction l as [|ich l IH]; intros n acc Hacc; [exact Hacc|].
    simpl. apply IH. apply draw_small35_step_points. exact Hacc. }
  intros l n. apply H. constructor.
Qed.

Section ColonProperties.
Context {R : Runtime}.

Lemma draw_temp_points (dev : device) (temp_txt : option string) :
  Forall (fun op => is_point op = true) (draw_temp dev temp_txt).
Proof.
  unfold draw_temp. destruct temp_txt as [txt|]; [|constructor].
  destruct (Py.truthy (Some txt)); [apply draw_small35_points|constructor].
Qed.

(** The renderer's output has one shape for both values of [blink]: the
    hours, the two colon points unless [blink], the minutes. *)
Lemma draw_time_shape (dev : device) (timestr : string) (f : font)
  (left_reserved gap colon_w colon_vgap time_offset : Z) :
  exists x y cx t1 t2 mx,
    forall blink,
      draw_time_with_custom_colon dev timestr f blink left_reserved gap colon_w
        colon_vgap time_offset
      = Text x y (fst (hh_mm timestr)) f
        :: (if blink then [] else [Point cx t1; Point cx t2])
        ++ [Text mx y (snd (hh_mm timestr)) f].
Proof.
  unfold draw_time_with_custom_colon.
  destruct (hh_mm timestr) as [hh mm]. cbn [fst snd].
  destruct (textsize hh f) as [w_h h]. destruct (textsize mm f) as [w_m h'].
  do 6 eexists. intros blink. destruct blink; reflexivity.
Qed.

(** The colon of a frame made of the temperature widget, the time and
    anything after it. *)
Lemma colon_ops_frame (dev : device) (temp_txt : option string) (timestr : string)
  (f : font) (blink : bool) (left_reserved gap colon_w colon_vgap time_offset : Z)
  (after : list draw_op) :
  exists cx t1 t2,
    colon_ops (draw_temp dev temp_txt
               ++ draw_time_with_custom_colon dev timestr f blink left_reserved gap
                    colon_w colon_vgap time_offset
               ++ after)
    = if blink then [] else [Point cx t1; Point cx t2].
Proof.
  destruct (draw_time_shape dev timestr f left_reserved gap colon_w colon_vgap
              time_offset) as (x & y & cx & t1 & t2 & mx & E).
  exists cx, t1, t2. rewrite E. unfold colon_ops. cbn [app].
  rewrite (after_first_text_app _ _ _ _ _ _ (draw_temp_points dev temp_txt)).
  rewrite <- app_assoc. cbn [app].
  rewrite points_before_text_app; [reflexivity|].
  destruct blink; repeat constructor.
Qed.

Lemma minute_swipe_loop_frames (dev : device) (timestr : string) (time_font : font)
  (left_reserved colon_vgap : Z) (temp_txt : option string) (frame_delay : Q)
  (stop : stop_flag) (dxs : list Z) (k : nat) (ops : list draw_op) :
  In (Frame ops)
     (minute_swipe_loop dev timestr time_font left_reserved colon_vgap temp_txt
        frame_delay stop k dxs) ->
  exists dx,
    In dx dxs
    /\ ops = draw_temp dev temp_txt
             ++ draw_time_with_custom_colon dev timestr time_font false left_reserved
                  1 1 colon_vgap dx.
Proof.
  revert k. induction dxs as [|dx dxs IH]; intros k; [intros []|].
  cbn [minute_swipe_loop]. destruct (stop k); [intros []|].
  intros [E|Hin].
  - injection E as <-. exists dx. split; [left; reflexivity|reflexivity].
  - destruct (sleep_raises frame_delay).
    + destruct Hin as [E|[]]. discriminate.
    + destruct Hin as [E|Hin]; [discriminate|].
      destruct (IH _ Hin) as (dx' & Hdx & ->). exists dx'.
      split; [right; exact Hdx|reflexivity].
Qed.

(** C7, as the program has it. [blink] is decided by the parity of the
    observed second: it is on exactly when [blink_colon] is set and the second
    is odd. The static frame of an iteration lights the two colon points
    exactly when [blink] is off; every frame of the minute swipe lights them,
    whatever the second. In both, [blink] only removes the two points: the
    hours, the colon column and the minutes keep their coordinates. *)
Theorem colon_blink_static_frame :
  forall (cfg : config) (dev : device) (env : environ) (st : state) (w : world),
    (blink_of cfg (clock w) = true <->
     blink_colon cfg <> 0 /\ second (clock w) mod 2 = 1)
    /\ (forall now', second now' mod 2 = second (clock w) mod 2 ->
                     blink_of cfg now' = blink_of cfg (clock w))
    /\ (forall ops, In (Normal ops) (snd (main_iteration cfg dev env st w)) ->
                    colon_lit ops = negb (blink_of cfg (clock w)))
    /\ (forall run ops,
          In (Swipe run) (snd (main_iteration cfg dev env st w)) ->
          In (Frame ops) run -> colon_lit ops = true)
    /\ (forall timestr f left_reserved gap colon_w colon_vgap time_offset,
        exists x y cx t1 t2 mx,
          forall blink,
            draw_time_with_custom_colon dev timestr f blink left_reserved gap colon_w
              colon_vgap time_offset
            = Text x y (fst (hh_mm timestr)) f
              :: (if blink then [] else [Point cx t1; Point cx t2])
              ++ [Text mx y (snd (hh_mm timestr)) f]).
Proof.
  intros cfg dev env st w.
  split; [|split; [|split; [|split]]].
  - unfold blink_of, Py.bool_of_int.
    rewrite andb_true_iff, negb_true_iff, Z.eqb_neq, Z.eqb_eq. tauto.
  - intros now' Hpar. unfold blink_of. rewrite Hpar. reflexivity.
  - intros ops Hin. apply main_iteration_normal in Hin. subst ops.
    unfold iteration_frame, normal_frame, colon_lit.
    destruct (colon_ops_frame dev (fst (iteration_layout cfg dev env w))
                (iteration_time cfg w) (time_font cfg) (blink_of cfg (clock w))
                (snd (iteration_layout cfg dev env w)) 1 1 (colon_vgap cfg) 0
                (if seconds_bar cfg
                 then draw_seconds_bar (clock w) (width dev) (height dev - 1)
                        (seconds_bar_dots cfg)
                 else [])) as (cx & t1 & t2 & Ec).
    rewrite Ec. destruct (blink_of cfg (clock w)); reflexivity.
  - intros run ops Hrun Hops. apply main_iteration_swipe in Hrun. subst run.
    unfold minute_swipe in Hops.
    apply minute_swipe_loop_frames in Hops. destruct Hops as (dx & _ & ->).
    unfold colon_lit.
    destruct (colon_ops_frame dev (fst (iteration_layout cfg dev env w))
                (iteration_time cfg w) (time_font cfg) false
                (snd (iteration_layout cfg dev env w)) 1 1 (colon_vgap cfg) dx [])
      as (cx & t1 & t2 & Ec).
    rewrite app_nil_r in Ec. rewrite Ec. reflexivity.
  - intros. apply draw_time_shape.
Qed.

End ColonProperties.

(** Started at 12:34:01 with the default settings, the first iteration runs
    the minute swipe: blinking is on and the second is odd, yet the first
    swipe frame lights the colon at column 30; the static frame that follows
    does not. *)
Lemma swipe_frame_breaks_colon_parity :
  let cfg := @load_config Demo.runtime unset_env in
  let w := reading_at 12 34 1 0 in
  let evs := snd (@main_iteration Demo.runtime cfg display_32x8 unset_env first_state w) in
  blink_of cfg (clock w) = true
  /\ (exists run ops,
        In (Swipe run) evs /\ In (Frame ops) run
        /\ colon_ops ops = [Point 30 2; Point 30 4])
  /\ (exists ops, In (Normal ops) evs /\ colon_ops ops = [])
  /\ ~ @colon_follows_parity_in_every_frame Demo.runtime.
Proof.
  intros cfg w evs.
  assert (exists run ops,
             In (Swipe run) evs /\ In (Frame ops) run
             /\ colon_ops ops = [Point 30 2; Point 30 4]) as Hswipe.
  { vm_compute. do 2 eexists. split; [left; reflexivity|].
    split; [left; reflexivity|]. reflexivity. }
  split; [reflexivity|]. split; [exact Hswipe|]. split.
  - vm_compute. eexists. split; [right; left; reflexivity|]. reflexivity.
  - intros Hrule. destruct Hswipe as (run & ops & Hrun & Hops & Hcolon).
    assert (colon_lit ops = negb (blink_of cfg (clock w))) as Hlit.
    { apply (Hrule cfg display_32x8 unset_env first_state w ops).
      right. exists run. auto. }
    unfold colon_lit in Hlit. rewrite Hcolon in Hlit. discriminate.
Qed.

(** With the default settings the static frame drawn at 12:34:01 has no
    colon and the one drawn at 12:34:02 has it. *)
Lemma colon_blink_example :
  let cfg := @load_config Demo.runtime unset_env in
  let st := {| current_brt := 12; last_minute_for_dim := 34;
               last_rendered_minute := Some 34;
               last_ticker_ts := Binary64.float_of_Z 0 |} in
  (forall ops,
      In (Normal ops)
         (snd (@main_iteration Demo.runtime cfg display_32x8 unset_env st
                 (reading_at 12 34 1 0))) ->
      colon_lit ops = false)
  /\ (forall ops,
        In (Normal ops)
           (snd (@main_iteration Demo.runtime cfg display_32x8 unset_env st
                   (reading_at 12 34 2 0))) ->
        colon_lit ops = true).
Proof.
  intros cfg st. split; intros ops Hin.
  - exact (proj1 (proj2 (proj2 (@colon_blink_static_frame Demo.runtime cfg display_32x8
                                  unset_env st (reading_at 12 34 1 0)))) ops Hin).
  - exact (proj1 (proj2 (proj2 (@colon_blink_static_frame Demo.runtime cfg display_32x8
                                  unset_env st (reading_at 12 34 2 0)))) ops Hin).
Defined.

(** ** The seconds bar *)




(** The expression of the specification, as one fraction, and its floor. *)
Lemma seconds_bar_fraction (s u w : Z) :
  ((inject_Z s + inject_Z u / 1000000) / 60 * inject_Z w
   == Qmake ((s * 1000000 + u) * w) 60000000)%Q.
Proof. unfold Qeq, Qdiv, Qmult, Qplus, Qinv, inject_Z. simpl. ring. Qed.

Lemma seconds_bar_floor_div (now : datetime) (w : Z) :
  seconds_bar_floor now w = elapsed_us now * w / 60000000.
Proof.
  unfold seconds_bar_floor, elapsed_us.
  rewrite (Qfloor_comp _ _ (seconds_bar_fraction (second now) (microsecond now) w)).
  reflexivity.
Qed.

(** *** Binary64 *)

Section Binary64Properties.
Import Uint63.

Lemma pow2_spec (d : nat) :
  (d < 62)%nat -> Uint63.to_Z (Binary64.pow2 d) = 2 ^ Z.of_nat d.
Proof.
  induction d as [|d IH]; intros Hd; [reflexivity|].
  cbn [Binary64.pow2]. rewrite Uint63.mul_spec, IH by lia.
  change (Uint63.to_Z 2%uint63) with 2.
  rewrite Nat2Z.inj_succ, Z.pow_succ_r by lia.
  apply Z.mod_small. split; [lia|].
  rewrite <- Z.pow_succ_r by lia. change Uint63.wB with (2 ^ 63).
  apply Z.pow_lt_mono_r; lia.
Qed.

Lemma all_from_spec (f : Uint63.int -> bool) (d : nat) :
  forall lo : Uint63.int,
    (d < 62)%nat -> Uint63.to_Z lo + 2 ^ Z.of_nat d < 2 ^ 62 ->
    Binary64.all_from d lo f = true ->
    forall i : Uint63.int,
      Uint63.to_Z lo <= Uint63.to_Z i < Uint63.to_Z lo + 2 ^ Z.of_nat d -> f i = true.
Proof.
  induction d as [|d IH]; intros lo Hd Hlo Hall i Hi.
  - change (2 ^ Z.of_nat 0) with 1 in Hi.
    assert (i = lo) as -> by (apply Uint63.to_Z_inj; lia). exact Hall.
  - cbn [Binary64.all_from] in Hall. apply andb_prop in Hall.
    destruct Hall as [Hl Hr].
    rewrite Nat2Z.inj_succ, Z.pow_succ_r in Hlo, Hi by lia.
    assert (Uint63.to_Z (Uint63.add lo (Binary64.pow2 d))
            = Uint63.to_Z lo + 2 ^ Z.of_nat d) as Hmid.
    { rewrite Uint63.add_spec, pow2_spec by lia. apply Z.mod_small.
      pose proof (Uint63.to_Z_bounded lo).
      assert (0 < 2 ^ Z.of_nat d) by (apply Z.pow_pos_nonneg; lia).
      assert (2 ^ 62 < Uint63.wB) by reflexivity. lia. }
    destruct (Z_lt_le_dec (Uint63.to_Z i) (Uint63.to_Z lo + 2 ^ Z.of_nat d)) as [Hlt|Hge].
    + apply (IH lo); try lia. exact Hl.
    + apply (IH (Uint63.add lo (Binary64.pow2 d))); try lia. exact Hr.
Qed.

(** Every instant of the grid, on every width of the list, evaluated. *)
Lemma binary64_agrees_on_grid :
  Binary64.all_from 20 (Uint63.of_Z 0)
    (Binary64.below (Uint63.of_Z 600000) Binary64.agrees_on_grid) = true.
Proof. vm_cast_no_check (eq_refl true). Qed.

Lemma of_Z_small (n : Z) : 0 <= n < 2 ^ 62 -> Uint63.to_Z (Uint63.of_Z n) = n.
Proof.
  intros Hn. rewrite Uint63.of_Z_spec. apply Z.mod_small.
  assert (2 ^ 62 < Uint63.wB) by reflexivity. lia.
Qed.

(** On the grid the count is the quotient the floor comes to. *)
Lemma binary64_count_on_grid (now : datetime) (w : Z) :
  In w Binary64.widths ->
  0 <= second now <= 59 -> 0 <= microsecond now <= 999999 ->
  microsecond now mod 100 = 0 ->
  Binary64.seconds_bar_filled now w = elapsed_us now * w / 60000000.
Proof.
  intros Hw Hs Hu Hgrid.
  assert (0 <= w <= 64) as Hw64 by (unfold Binary64.widths in Hw; simpl in Hw; lia).
  set (e := elapsed_us now).
  assert (0 <= e < 60000000) as He by (subst e; unfold elapsed_us; lia).
  assert (e mod 100 = 0) as Hmod.
  { subst e. unfold elapsed_us.
    replace (second now * 1000000) with (second now * 10000 * 100) by lia.
    rewrite Z.add_comm, Z.mod_add by lia. exact Hgrid. }
  set (j := Uint63.of_Z (e / 100)).
  assert (0 <= e / 100 < 600000) as Hj.
  { split; [apply Z.div_pos; lia|apply Z.div_lt_upper_bound; lia]. }
  assert (Uint63.to_Z j = e / 100) as Ej by (apply of_Z_small; lia).
  set (i := (100 * j)%uint63).
  assert (Uint63.to_Z i = e) as Hi.
  { subst i. rewrite Uint63.mul_spec, Ej. change (Uint63.to_Z 100%uint63) with 100.
    rewrite Z.mod_small.
    - pose proof (Z.div_mod e 100 ltac:(lia)). lia.
    - assert (2 ^ 62 < Uint63.wB) by reflexivity.
      assert (2 ^ 62 = 4611686018427387904) by reflexivity. lia. }
  assert (Binary64.below (Uint63.of_Z 600000) Binary64.agrees_on_grid j = true) as Hall.
  { apply (all_from_spec _ 20 (Uint63.of_Z 0)).
    - lia.
    - reflexivity.
    - exact binary64_agrees_on_grid.
    - rewrite Ej. change (Uint63.to_Z (Uint63.of_Z 0)) with 0.
      change (2 ^ Z.of_nat 20) with 1048576. lia. }
  unfold Binary64.below in Hall.
  assert (Uint63.ltb j (Uint63.of_Z 600000) = true) as Hlt.
  { apply Uint63.ltb_spec. rewrite Ej.
    change (Uint63.to_Z (Uint63.of_Z 600000)) with 600000. lia. }
  rewrite Hlt in Hall. unfold Binary64.agrees_on_grid, Binary64.agrees in Hall.
  fold i in Hall. cbv zeta in Hall. rewrite forallb_forall in Hall.
  assert (Uint63.div i 1000000%uint63 = Uint63.of_Z (second now)) as Es.
  { apply Uint63.to_Z_inj. rewrite Uint63.div_spec, Hi, of_Z_small by lia.
    change (Uint63.to_Z 1000000%uint63) with 1000000.
    subst e. unfold elapsed_us. symmetry.
    apply (Z.div_unique _ _ _ (microsecond now)); lia. }
  assert (Uint63.mod i 1000000%uint63 = Uint63.of_Z (microsecond now)) as Eu.
  { apply Uint63.to_Z_inj. rewrite Uint63.mod_spec, Hi, of_Z_small by lia.
    change (Uint63.to_Z 1000000%uint63) with 1000000.
    subst e. unfold elapsed_us. symmetry.
    apply (Z.mod_unique _ _ (second now)); lia. }
  assert (In (Uint63.of_Z w) Binary64.int_widths) as Hin.
  { change Binary64.int_widths with (map Uint63.of_Z Binary64.widths).
    apply in_map. exact Hw. }
  specialize (Hall _ Hin). apply Uint63.eqb_spec in Hall.
  rewrite Es, Eu in Hall.
  unfold Binary64.seconds_bar_filled, Binary64.filled_int. rewrite Hall.
  rewrite Uint63.div_spec, Uint63.mul_spec, Hi, of_Z_small by lia.
  change (Uint63.to_Z 60000000%uint63) with 60000000.
  rewrite Z.mod_small; [reflexivity|].
  assert (2 ^ 62 < Uint63.wB) by reflexivity.
  assert (2 ^ 62 = 4611686018427387904) by reflexivity. nia.
Qed.

(** X5. In binary64, as the interpreter computes it, the count is the exact
    one at every ten-thousandth of a second of the minute (which includes
    every pixel boundary) on displays of 8, 16, 24, 32 and 64 columns. *)
Theorem seconds_bar_binary64_on_grid :
  forall (now : datetime) (w : Z),
    In w Binary64.widths ->
    0 <= second now <= 59 -> 0 <= microsecond now <= 999999 ->
    microsecond now mod 100 = 0 ->
    Binary64.seconds_bar_filled now w = seconds_bar_floor now w.
Proof.
  intros now w Hw Hs Hu Hgrid. rewrite seconds_bar_floor_div.
  apply binary64_count_on_grid; assumption.
Qed.

(** The shift of the mantissa and the reading of the float's fields give the
    same integer part, here on the products met around the pixel boundaries
    of a 32 column bar. *)
Lemma trunc_int_by_fields :
  forallb
    (fun e =>
       let x := PrimFloat.mul
                  (Binary64.frac (Uint63.of_Z (e / 1000000)) (Uint63.of_Z (e mod 1000000)))
                  (PrimFloat.of_uint63 32%uint63) in
       Uint63.to_Z (Binary64.trunc_int x) =? Binary64.trunc_by_fields x)
    (0 :: 59999999 :: boundaries_32) = true.
Proof. vm_compute. reflexivity. Qed.

End Binary64Properties.

(** At 59.9990 s binary64 fills 31 of 32 pixels, as the floor says. *)
Lemma seconds_bar_binary64_example :
  Binary64.seconds_bar_filled (on_2025_08_10 12 34 59 999000) 32 = 31.
Proof.
  rewrite (seconds_bar_binary64_on_grid (on_2025_08_10 12 34 59 999000) 32).
  - reflexivity.
  - simpl. tauto.
  - simpl. lia.
  - simpl. lia.
  - reflexivity.
Defined.




(** ** Sleeps that raise *)

Lemma sleep_raises_iff (secs : Q) : sleep_raises secs = true <-> (secs < 0)%Q.
Proof.
  unfold sleep_raises. rewrite negb_true_iff. split.
  - intros H. apply Qnot_le_lt. intros Hle. apply Qle_bool_iff in Hle. congruence.
  - intros H. destruct (Qle_bool 0 secs) eqn:E; [|reflexivity].
    apply Qle_bool_iff in E. lra.
Qed.

Lemma sleep_returns (secs : Q) : (0 <= secs)%Q -> sleep_raises secs = false.
Proof.
  intros H. unfold sleep_raises. apply negb_false_iff. apply Qle_bool_iff. exact H.
Qed.

Section RaisingProperties.
Context {R : Runtime}.

Lemma marquee_loop_returns (dev : device) (text_ascii : string) (f : font) (speed : Q)
  (h : Z) (stop : stop_flag) (offsets : list Z) :
  sleep_raises speed = false ->
  forall k, raised (marquee_loop dev text_ascii f speed h stop k offsets) = false.
Proof.
  intros Hs. induction offsets as [|o rest IH]; intros k; [reflexivity|].
  cbn [marquee_loop]. destruct (stop k); [reflexivity|]. rewrite Hs.
  unfold raised. cbn [existsb orb]. apply IH.
Qed.

Lemma marquee_returns (dev : device) (text_ascii : string) (f : font) (speed : Q)
  (gap : Z) (stop : stop_flag) :
  (0 <= speed)%Q -> raised (marquee_once_legacy dev text_ascii f speed gap stop) = false.
Proof.
  intros Hs. unfold marquee_once_legacy. destruct (textsize text_ascii f) as [w h].
  apply marquee_loop_returns. apply sleep_returns. exact Hs.
Qed.




End RaisingProperties.

(** ** The date ticker in the loop *)

Section TickerProperties.
Context {R : Runtime}.

Lemma on_the_hour_iff (now : datetime) :
  on_the_hour now = true <-> minute now = 0 /\ second now = 0.
Proof. unfold on_the_hour. rewrite andb_true_iff, !Z.eqb_eq. reflexivity. Qed.

(** The ticker events of an iteration are those of its ticker step. *)
Lemma main_iteration_ticker (cfg : config) (dev : device) (env : environ)
  (st : state) (w : world) (txt : string) (run : list frame_ev) :
  In (Ticker txt run) (snd (main_iteration cfg dev env st w)) <->
  In (Ticker txt run)
     (snd (ticker_step cfg dev (fst (auto_dim_step cfg st (clock w))) w)).
Proof.
  pose proof (main_iteration_events cfg dev env st w) as E. cbv zeta in E.
  rewrite E. clear E. rewrite !in_app_iff. split; [|tauto].
  intros [H|[H|[H|H]]].
  - apply auto_dim_step_events in H. destruct H as (? & H). discriminate.
  - apply sparkle_step_events in H. destruct H as (? & ? & ? & H). discriminate.
  - exact H.
  - destruct (existsb event_raised (snd (ticker_step _ _ _ _))); [destruct H|].
    apply in_app_or in H. destruct H as [H|H].
    + apply swipe_step_events in H. destruct H as (_ & H). discriminate.
    + destruct (existsb event_raised (snd (swipe_step _ _ _ _ _ _ _))); [destruct H|].
      destruct H as [H|[H|[]]]; discriminate.
Qed.

Lemma main_iteration_ticker_ts (cfg : config) (dev : device) (env : environ)
  (st : state) (w : world) :
  last_ticker_ts (fst (main_iteration cfg dev env st w))
  = last_ticker_ts (fst (ticker_step cfg dev (fst (auto_dim_step cfg st (clock w))) w)).
Proof.
  pose proof (main_iteration_unfold cfg dev env st w) as E. cbv zeta in E.
  rewrite E. clear E.
  destruct (existsb event_raised (snd (ticker_step _ _ _ _))); [reflexivity|].
  destruct (existsb event_raised (snd (swipe_step _ _ _ _ _ _ _))); cbn [fst];
    apply swipe_step_ticker_ts.
Qed.

Lemma ticker_due_after_dim (cfg : config) (st : state) (w : world) :
  ticker_due cfg (fst (auto_dim_step cfg st (clock w))) w = ticker_due cfg st w.
Proof.
  unfold ticker_due, since_ticker. rewrite auto_dim_step_ticker_ts. reflexivity.
Qed.

Lemma ticker_due_iff (cfg : config) (st : state) (w : world) :
  ticker_due cfg st w = true <-> (ticker_every cfg <= since_ticker st w)%Q.
Proof. unfold ticker_due. apply Qle_bool_iff. Qed.

(** An iteration that does not run the ticker. *)
Lemma main_iteration_skips_ticker (cfg : config) (dev : device) (env : environ)
  (st : state) (w : world) :
  ticker_due cfg st w && negb (on_the_hour (clock w)) = false ->
  no_ticker (snd (main_iteration cfg dev env st w))
  /\ last_ticker_ts (fst (main_iteration cfg dev env st w)) = last_ticker_ts st.
Proof.
  intros Hskip. split.
  - intros txt run Hin. apply main_iteration_ticker in Hin.
    unfold ticker_step in Hin. rewrite ticker_due_after_dim, Hskip in Hin.
    destruct Hin.
  - rewrite main_iteration_ticker_ts. unfold ticker_step.
    rewrite ticker_due_after_dim, Hskip. cbn [fst]. apply auto_dim_step_ticker_ts.
Qed.

Lemma main_loop_on_the_hour (cfg : config) (dev : device) (env : environ)
  (ws : list world) :
  (forall w, In w ws -> on_the_hour (clock w) = true) ->
  forall st, no_ticker (main_loop cfg dev env st ws).
Proof.
  induction ws as [|w ws IH]; intros Hall st txt run; [intros []|].
  cbn [main_loop]. destruct (stop_at_loop w); [intros []|].
  destruct (main_iteration cfg dev env st w) as [st' evs] eqn:E.
  assert (ticker_due cfg st w && negb (on_the_hour (clock w)) = false) as Hskip.
  { rewrite (Hall w (or_introl eq_refl)). apply andb_false_r. }
  destruct (main_iteration_skips_ticker cfg dev env st w Hskip) as [Hno _].
  rewrite E in Hno. cbn [snd] in Hno.
  destruct (existsb event_raised evs); [exact (Hno _ _)|].
  rewrite in_app_iff. intros [Hin|Hin].
  - exact (Hno _ _ Hin).
  - apply (IH (fun w' H => Hall w' (or_intror H)) st' txt run Hin).
Qed.

(** C5. An iteration that reads minute 0 and second 0 never runs the date
    ticker, however long ago the last run was, and leaves its timestamp
    alone (the hour sparkle, when enabled, is what runs); at any other minute
    or second an elapsed interval runs the ticker once, with the date of the
    observed time, and restarts the interval when the marquee has returned
    (it does for a delay that is not negative); an interval that has not
    elapsed runs nothing. Hence a loop whose iterations all fall on the hour
    never shows the ticker. The interval is the binary64 difference of the
    two clock readings. *)
Theorem ticker_skipped_on_the_hour :
  forall (cfg : config) (dev : device) (env : environ) (st : state) (w : world),
    let now := clock w in
    let r := main_iteration cfg dev env st w in
    (minute now = 0 -> second now = 0 ->
       no_ticker (snd r)
       /\ last_ticker_ts (fst r) = last_ticker_ts st
       /\ (sparkle_on_hour cfg = true ->
           In (Sparkle (sparkle_duration cfg) (sparkle_density cfg) (sparkle_fps cfg))
              (snd r)))
    /\ (~ (minute now = 0 /\ second now = 0) ->
        (ticker_every cfg <= since_ticker st w)%Q ->
        In (Ticker (format_en_date now (Py.bool_of_int (ticker_with_year cfg)))
              (marquee_once_legacy dev
                 (format_en_date now (Py.bool_of_int (ticker_with_year cfg)))
                 (ticker_font cfg) (ticker_speed cfg) (ticker_gap cfg)
                 (stop_in_ticker w)))
           (snd r)
        /\ (forall txt run txt' run',
              In (Ticker txt run) (snd r) -> In (Ticker txt' run') (snd r) ->
              txt = txt' /\ run = run')
        /\ ((0 <= ticker_speed cfg)%Q -> last_ticker_ts (fst r) = mono_done w)
        /\ (forall txt run, In (Ticker txt run) (snd r) ->
              last_ticker_ts (fst r)
              = if raised run then last_ticker_ts st else mono_done w))
    /\ (~ (ticker_every cfg <= since_ticker st w)%Q ->
        no_ticker (snd r) /\ last_ticker_ts (fst r) = last_ticker_ts st)
    /\ (forall ws,
          (forall w', In w' ws -> minute (clock w') = 0 /\ second (clock w') = 0) ->
          no_ticker (main_loop cfg dev env st ws)).
Proof.
  intros cfg dev env st w now r. subst now r.
  split; [|split; [|split]].
  - intros Hm Hs.
    assert (on_the_hour (clock w) = true) as Hh by (apply on_the_hour_iff; auto).
    destruct (main_iteration_skips_ticker cfg dev env st w) as [Hno Hts].
    { rewrite Hh. apply andb_false_r. }
    split; [exact Hno|]. split; [exact Hts|].
    intros Hsp. pose proof (main_iteration_events cfg dev env st w) as E.
    cbv zeta in E. rewrite E. rewrite !in_app_iff. right. left.
    unfold sparkle_step. rewrite Hsp, Hh. left. reflexivity.
  - intros Hnot Hdue.
    assert (on_the_hour (clock w) = false) as Hh.
    { destruct (on_the_hour (clock w)) eqn:Hh; [|reflexivity].
      apply on_the_hour_iff in Hh. tauto. }
    apply ticker_due_iff in Hdue.
    set (txt0 := format_en_date (clock w) (Py.bool_of_int (ticker_with_year cfg))).
    set (run0 := marquee_once_legacy dev txt0 (ticker_font cfg) (ticker_speed cfg)
                   (ticker_gap cfg) (stop_in_ticker w)).
    set (st1 := fst (auto_dim_step cfg st (clock w))).
    assert (ticker_step cfg dev st1 w
            = (if raised run0 then st1
               else {| current_brt := current_brt st1;
                       last_minute_for_dim := last_minute_for_dim st1;
                       last_rendered_minute := last_rendered_minute st1;
                       last_ticker_ts := mono_done w |},
               [Ticker txt0 run0])) as Estep.
    { unfold ticker_step. subst st1. rewrite ticker_due_after_dim, Hdue, Hh.
      reflexivity. }
    assert (last_ticker_ts (fst (main_iteration cfg dev env st w))
            = if raised run0 then last_ticker_ts st else mono_done w) as Hts.
    { rewrite main_iteration_ticker_ts. fold st1. rewrite Estep. cbn [fst].
      destruct (raised run0); [|reflexivity].
      subst st1. apply auto_dim_step_ticker_ts. }
    split; [|split; [|split]].
    + apply main_iteration_ticker. fold st1. rewrite Estep. left. reflexivity.
    + intros txt run txt' run' H1 H2.
      apply main_iteration_ticker in H1. apply main_iteration_ticker in H2.
      fold st1 in H1, H2. rewrite Estep in H1, H2. cbn [snd] in H1, H2.
      destruct H1 as [H1|[]]. destruct H2 as [H2|[]]. split; congruence.
    + intros Hspeed. rewrite Hts. subst run0.
      rewrite marquee_returns by exact Hspeed. reflexivity.
    + intros txt run Hin. apply main_iteration_ticker in Hin.
      fold st1 in Hin. rewrite Estep in Hin. cbn [snd] in Hin.
      destruct Hin as [Hin|[]]. injection Hin as _ <-. exact Hts.
  - intros Hnot. apply main_iteration_skips_ticker.
    destruct (ticker_due cfg st w) eqn:Hdue; [|reflexivity].
    apply ticker_due_iff in Hdue. tauto.
  - intros ws Hall. apply main_loop_on_the_hour.
    intros w' Hin. apply on_the_hour_iff. auto.
Qed.

End TickerProperties.

(** The spec's scenario: at 00:00:00, more than a minute after the last
    ticker, the iteration runs the sparkle and the swipe but no ticker; one
    second later the ticker runs. *)
Lemma ticker_midnight_example :
  let cfg := @load_config Demo.runtime unset_env in
  let st := {| current_brt := 3; last_minute_for_dim := 59;
               last_rendered_minute := Some 59;
               last_ticker_ts := Binary64.float_of_Z 0 |} in
  let late (w : world) : world :=
    {| stop_at_loop := false; clock := clock w;
       mono_check := Binary64.float_of_Z 100; mono_done := Binary64.float_of_Z 107;
       sysfs_text := sysfs_text w; vcgencmd_out := vcgencmd_out w;
       stop_in_ticker := stop_in_ticker w; stop_in_swipe := stop_in_swipe w |} in
  no_ticker (snd (@main_iteration Demo.runtime cfg display_32x8 unset_env st
                    (late (reading_at 0 0 0 0))))
  /\ last_ticker_ts (fst (@main_iteration Demo.runtime cfg display_32x8 unset_env st
                            (late (reading_at 0 0 1 0)))) = Binary64.float_of_Z 107.
Proof.
  intros cfg st late. split.
  - exact (proj1 (proj1 (@ticker_skipped_on_the_hour Demo.runtime cfg display_32x8
                           unset_env st (late (reading_at 0 0 0 0)))
                    eq_refl eq_refl)).
  - pose proof (proj1 (proj2 (@ticker_skipped_on_the_hour Demo.runtime cfg display_32x8
                                unset_env st (late (reading_at 0 0 1 0)))))
      as Hrun.
    cbv zeta in Hrun. destruct Hrun as (_ & _ & Hts & _).
    + simpl. intros [_ H]. discriminate.
    + vm_compute. discriminate.
    + apply Hts. vm_compute. discriminate.
Defined.

(** ** The marquee *)

Lemma range3_from_zero (total : Z) :
  Py.range3 0 total 1 = map Z.of_nat (seq 0 (Z.to_nat total)).
Proof.
  unfold Py.range3, Py.range_len. simpl (0 <? 1).
  replace (if 0 <? total then Z.to_nat ((total - 0 - 1) / 1 + 1) else 0%nat)
    with (Z.to_nat total).
  - apply map_ext. intros i. lia.
  - destruct (Z.ltb_spec 0 total); [rewrite Z.div_1_r|]; lia.
Qed.

Section MarqueeProperties.
Context {R : Runtime}.




End MarqueeProperties.


(** ** The 3x5 font *)

Lemma length_list_ascii (s : string) :
  List.length (list_ascii_of_string s) = String.length s.
Proof. induction s as [|c s IH]; simpl; congruence. Qed.

Lemma draw_small35_fold (n : nat) (y spacing : Z) (chars : list ascii) :
  forall (i : nat) (cx : Z) (ops : list draw_op),
    (i + List.length chars = n)%nat ->
    snd (fold_left (draw_small35_step n y spacing)
           (combine (seq i (List.length chars)) chars) (cx, ops))
    = ops ++ draw_run cx y spacing chars.
Proof.
  induction chars as [|ch rest IH]; intros i cx ops Hn.
  - simpl. rewrite app_nil_r. reflexivity.
  - simpl in Hn. simpl. destruct (DIGITS_3x5 ch) as [glyph|].
    + destruct (Z.eqb_spec (Z.of_nat i) (Z.of_nat n - 1)) as [Hlast|Hmore]; simpl.
      * assert (rest = []) as -> by (destruct rest; [reflexivity|simpl in Hn; lia]).
        simpl. rewrite app_nil_r. reflexivity.
      * rewrite IH by lia. rewrite <- app_assoc. reflexivity.
    + apply IH. lia.
Qed.

Lemma draw_small35_run (x y : Z) (txt : string) (spacing : Z) :
  draw_small35 x y txt spacing = draw_run x y spacing (list_ascii_of_string txt).
Proof.
  unfold draw_small35, Py.enumerate. rewrite <- length_list_ascii.
  rewrite draw_small35_fold by reflexivity. reflexivity.
Qed.

Lemma draw_run_filter (cx y spacing : Z) (chars : list ascii) :
  draw_run cx y spacing (filter supported chars) = draw_run cx y spacing chars.
Proof.
  revert cx. induction chars as [|ch rest IH]; intros cx; [reflexivity|].
  simpl. unfold supported at 1. destruct (DIGITS_3x5 ch) as [glyph|] eqn:E.
  - simpl. rewrite E, IH. reflexivity.
  - apply IH.
Qed.

(** X1. The drawing part of the skipping rule: an unsupported character
    lights nothing and moves nothing, so a text draws the same points as the
    text without its unsupported characters. *)
Lemma draw_small35_skips_unsupported (x y : Z) (txt : string) (spacing : Z) :
  draw_small35 x y txt spacing = draw_small35 x y (keep_supported txt) spacing.
Proof.
  rewrite !draw_small35_run. unfold keep_supported.
  rewrite list_ascii_of_string_of_list_ascii, draw_run_filter. reflexivity.
Qed.

Lemma small35_width_fold (n : nat) (spacing : Z) (chars : list ascii) :
  forall (i : nat) (w : Z),
    (i + List.length chars = n)%nat ->
    fold_left
      (fun w '(i, ch) =>
         match DIGITS_3x5 ch with
         | Some _ =>
             let w := w + 3 in
             if negb (Z.of_nat i =? Z.of_nat n - 1) then w + spacing else w
         | None => w
         end)
      (combine (seq i (List.length chars)) chars) w
    = w + width_run spacing chars.
Proof.
  induction chars as [|ch rest IH]; intros i w Hn.
  - simpl. lia.
  - simpl in Hn. cbn [List.length seq combine fold_left width_run].
    unfold supported. destruct (DIGITS_3x5 ch) as [glyph|].
    + destruct (Z.eqb_spec (Z.of_nat i) (Z.of_nat n - 1)) as [Hlast|Hmore];
        cbn [negb].
      * assert (rest = []) as -> by (destruct rest; [reflexivity|simpl in Hn; lia]).
        cbn [List.length seq combine fold_left width_run]. lia.
      * rewrite IH by lia. destruct rest; [simpl in Hn; lia|]. lia.
    + rewrite IH by lia. lia.
Qed.

Lemma small35_text_size_run (txt : string) (spacing : Z) :
  small35_text_size txt spacing = (width_run spacing (list_ascii_of_string txt), 5).
Proof.
  unfold small35_text_size, Py.enumerate. rewrite <- length_list_ascii.
  rewrite small35_width_fold by reflexivity. reflexivity.
Qed.

Lemma filter_supported_nil (chars : list ascii) :
  filter supported chars = [] -> existsb supported chars = false.
Proof.
  intros Hf. apply not_true_is_false. intros Hex.
  apply existsb_exists in Hex. destruct Hex as (c & Hin & Hc).
  assert (In c (filter supported chars)) as Hin' by (apply filter_In; auto).
  rewrite Hf in Hin'. destruct Hin'.
Qed.

Lemma filter_supported_cons (chars l : list ascii) (c : ascii) :
  filter supported chars = c :: l -> existsb supported chars = true.
Proof.
  intros Hf. apply existsb_exists. exists c.
  assert (In c (filter supported chars)) as Hin by (rewrite Hf; left; reflexivity).
  apply filter_In in Hin. exact Hin.
Qed.

Lemma width_run_filter (spacing : Z) (chars : list ascii) :
  width_run spacing chars
  = width_run spacing (filter supported chars)
    + (if trailing_unsupported chars then spacing else 0).
Proof.
  unfold trailing_unsupported.
  induction chars as [|ch rest IH]; [reflexivity|].
  cbn [width_run filter existsb]. rewrite IH. clear IH.
  destruct rest as [|ch' rest'].
  - cbn [filter existsb last width_run andb orb].
    destruct (supported ch) eqn:Hch; cbn [width_run andb orb negb].
    + rewrite Hch. cbn [negb]. lia.
    + lia.
  - change (last (ch :: ch' :: rest') "0"%char) with (last (ch' :: rest') "0"%char).
    set (tail := ch' :: rest') in *.
    destruct (supported ch) eqn:Hch; cbn [orb andb width_run]; [|lia].
    rewrite Hch.
    destruct (filter supported tail) as [|c l] eqn:Hf.
    + rewrite (filter_supported_nil _ Hf). cbn [andb width_run].
      assert (supported (last tail "0"%char) = false) as Hl.
      { apply not_true_is_false. intros Hl.
        assert (In (last tail "0"%char) (filter supported tail)) as Hin.
        { apply filter_In. split; [|exact Hl].
          destruct (exists_last (l := tail) ltac:(discriminate)) as (l' & a & E).
          rewrite E, last_last. apply in_or_app. right. left. reflexivity. }
        rewrite Hf in Hin. destruct Hin. }
      rewrite Hl. cbn [negb]. subst tail. lia.
    + rewrite (filter_supported_cons _ _ _ Hf). cbn [andb].
      subst tail. destruct (supported (last (ch' :: rest') "0"%char)); cbn [negb]; lia.
Qed.

(** X2. The width part of the skipping rule: the computed width is that of
    the text without its unsupported characters, plus one spacing when the
    text ends with an unsupported character after a supported one. *)
Lemma small35_width_skips_unsupported (txt : string) (spacing : Z) :
  fst (small35_text_size txt spacing)
  = fst (small35_text_size (keep_supported txt) spacing)
    + (if trailing_unsupported (list_ascii_of_string txt) then spacing else 0).
Proof.
  rewrite !small35_text_size_run. cbn [fst]. unfold keep_supported.
  rewrite list_ascii_of_string_of_list_ascii. apply width_run_filter.
Qed.


Lemma width_run_closed (spacing : Z) (chars : list ascii) :
  width_run spacing chars
  = 3 * Z.of_nat (List.length (filter supported chars))
    + spacing * (Z.of_nat (List.length (filter supported chars))
                 - (if ends_supported chars then 1 else 0)).
Proof.
  induction chars as [|ch rest IH].
  - cbn. ring.
  - cbn [width_run]. rewrite IH. clear IH. unfold ends_supported.
    destruct rest as [|c rest'].
    + change (supported (last [] " "%char)) with false.
      cbn [filter last List.length]. destruct (supported ch); cbn [List.length Z.of_nat]; ring.
    + change (last (ch :: c :: rest') " "%char) with (last (c :: rest') " "%char).
      set (e := if supported (last (c :: rest') " "%char) then 1 else 0).
      cbn [filter]. set (k := filter supported rest').
      destruct (supported ch); destruct (supported c); cbn [List.length];
        rewrite ?Nat2Z.inj_succ; ring.
Qed.

Lemma ends_supported_counted (chars : list ascii) :
  ends_supported chars = true -> (1 <= List.length (filter supported chars))%nat.
Proof.
  unfold ends_supported. intros H.
  destruct chars as [|c l]; [discriminate H|].
  destruct (exists_last (l := c :: l) ltac:(discriminate)) as [l' [a E]].
  rewrite E in *. rewrite last_last in H. rewrite filter_app, length_app.
  cbn [filter]. rewrite H. cbn [List.length]. lia.
Qed.

Lemma small35_width_all_supported (txt : string) (spacing : Z) :
  forallb supported (list_ascii_of_string txt) = true -> txt <> "" ->
  fst (small35_text_size txt spacing)
  = 3 * Z.of_nat (String.length txt) + spacing * (Z.of_nat (String.length txt) - 1).
Proof.
  intros Hall Hne. rewrite small35_text_size_run. cbn [fst]. rewrite width_run_closed.
  assert (filter supported (list_ascii_of_string txt) = list_ascii_of_string txt) as Hf.
  { apply forallb_filter_id. exact Hall. }
  rewrite Hf, length_list_ascii.
  assert (ends_supported (list_ascii_of_string txt) = true) as ->; [|reflexivity].
  unfold ends_supported. rewrite forallb_forall in Hall. apply Hall.
  destruct txt as [|c s]; [congruence|]. cbn [list_ascii_of_string].
  destruct (exists_last (l := c :: list_ascii_of_string s) ltac:(discriminate))
    as [l' [a E]].
  rewrite E, last_last. apply in_or_app. right. left. reflexivity.
Qed.


(** ** The temperature text *)

Lemma clamp_temp_bounds (t : Q) : (-99 <= clamp_temp t <= 199)%Q.
Proof.
  unfold clamp_temp, Py.max, Py.min.
  destruct (Qlt_le_dec t 199) as [Hlt|Hge].
  - destruct (Qlt_le_dec (-99) t); lra.
  - destruct (Qlt_le_dec (-99) 199); lra.
Qed.


(** [round] gives one of the two integers around [x], at distance at most
    one half, and stays between integer bounds of [x]. *)
Lemma round_floor_or_next (x : Q) :
  Py.round x = Qfloor x \/ Py.round x = Qfloor x + 1.
Proof.
  unfold Py.round. destruct (x - inject_Z (Qfloor x) ?= 1 # 2)%Q; auto.
  destruct (Z.even (Qfloor x)); auto.
Qed.


Lemma round_between (x : Q) (a b : Z) :
  (inject_Z a <= x <= inject_Z b)%Q -> a <= Py.round x <= b.
Proof.
  intros [Ha Hb].
  assert (a <= Qfloor x) as Hfa.
  { rewrite <- (Qfloor_Z a). apply Qfloor_resp_le. exact Ha. }
  assert (Qfloor x <= b) as Hfb.
  { rewrite <- (Qfloor_Z b). apply Qfloor_resp_le. exact Hb. }
  destruct (Z.eq_dec (Qfloor x) b) as [E|N].
  - assert (x == inject_Z b)%Q as Ex.
    { apply Qle_antisym; [exact Hb|]. rewrite <- E. apply Qfloor_le. }
    unfold Py.round. rewrite E.
    assert ((x - inject_Z b ?= 1 # 2)%Q = Lt) as C
      by (apply (proj1 (Qlt_alt _ _)); lra).
    rewrite C. lia.
  - destruct (round_floor_or_next x) as [->| ->]; lia.
Qed.



Lemma list_ascii_of_string_app (a b : string) :
  list_ascii_of_string (a ++ b) = list_ascii_of_string a ++ list_ascii_of_string b.
Proof. induction a as [|c a IH]; cbn; [reflexivity|]. rewrite IH. reflexivity. Qed.


(** Every integer from -99 to 199, evaluated. *)
Lemma temp_text_ok_clamped :
  forallb temp_text_ok (map (fun i => -99 + Z.of_nat i) (seq 0 299)) = true.
Proof. vm_compute. reflexivity. Qed.

Lemma temp_text_ok_range (r : Z) : -99 <= r <= 199 -> temp_text_ok r = true.
Proof.
  intros Hr. pose proof temp_text_ok_clamped as H. rewrite forallb_forall in H.
  apply H. apply in_map_iff. exists (Z.to_nat (r + 99)). split; [lia|].
  apply in_seq. lia.
Qed.

Lemma temp_raw_ok (temp_c : option Q) :
  forallb supported (list_ascii_of_string (temp_raw temp_c)) = true
  /\ (1 <= String.length (temp_raw temp_c) <= 3)%nat.
Proof.
  destruct temp_c as [t|]; [|split; [reflexivity|cbn; lia]].
  cbn [temp_raw].
  assert (temp_text_ok (Py.round (clamp_temp t)) = true) as H.
  { apply temp_text_ok_range. apply round_between. apply clamp_temp_bounds. }
  unfold temp_text_ok in H. rewrite !andb_true_iff in H.
  destruct H as [[H1 H2] H3]. apply Nat.leb_le in H2, H3. auto.
Qed.


(** ** The 3x5 font and the texts of the program *)

(** The pen of [draw_small35] ends [width] columns right of where it
    started: the width [small35_text_size] computes is the advance of the
    pen. *)
Lemma draw_small35_pen_fold (n : nat) (y spacing : Z) (chars : list ascii) :
  forall (i : nat) (cx : Z) (ops : list draw_op),
    (i + List.length chars = n)%nat ->
    fst (fold_left (draw_small35_step n y spacing)
           (combine (seq i (List.length chars)) chars) (cx, ops))
    = cx + width_run spacing chars.
Proof.
  induction chars as [|ch rest IH]; intros i cx ops Hn.
  - cbn. lia.
  - cbn [List.length seq combine fold_left width_run draw_small35_step].
    unfold supported. cbn [List.length] in Hn.
    destruct (DIGITS_3x5 ch) as [glyph|].
    + destruct rest as [|c rest'].
      * cbn [List.length] in Hn.
        assert ((Z.of_nat i =? Z.of_nat n - 1) = true) as -> by (apply Z.eqb_eq; lia).
        cbn. lia.
      * assert ((Z.of_nat i =? Z.of_nat n - 1) = false) as ->.
        { apply Z.eqb_neq. cbn [List.length] in Hn. lia. }
        cbn [negb]. rewrite IH by lia. lia.
    + rewrite IH by lia. lia.
Qed.

(** C9, as the program has it. [draw_small35] lights nothing for an
    unsupported character and does not move its pen: the footprint of a text
    is that of the text without its unsupported characters. The width
    [small35_text_size] computes is the advance of that pen: the width of the
    text without its unsupported characters (three columns per character and
    one spacing between neighbours), and one spacing more when the text ends
    with an unsupported character that follows a supported one. Width and
    footprint so agree on every text that does not end that way, and the
    texts the program passes, the temperature with or without its unit, hold
    supported characters only. *)
Theorem small35_skips_unsupported :
  forall (txt : string) (spacing x y : Z),
    let kept := keep_supported txt in
    let n := Z.of_nat (String.length kept) in
    draw_small35 x y txt spacing = draw_small35 x y kept spacing
    /\ forallb supported (list_ascii_of_string kept) = true
    /\ fst (small35_text_size kept spacing)
       = (if (0 <? n) then 3 * n + spacing * (n - 1) else 0)
    /\ fst (small35_text_size txt spacing)
       = fst (small35_text_size kept spacing)
         + (if trailing_unsupported (list_ascii_of_string txt) then spacing else 0)
    /\ (trailing_unsupported (list_ascii_of_string txt) = false ->
        small35_text_size txt spacing = small35_text_size kept spacing)
    /\ fst (fold_left (draw_small35_step (String.length txt) y spacing)
              (Py.enumerate txt) (x, []))
       = x + fst (small35_text_size txt spacing)
    /\ (forall (temp_c : option Q) (unit : string),
          unit = "" \/ unit = "C" ->
          keep_supported (temp_raw temp_c ++ unit) = (temp_raw temp_c ++ unit)%string
          /\ trailing_unsupported (list_ascii_of_string (temp_raw temp_c ++ unit))
             = false).
Proof.
  intros txt spacing x y kept n.
  assert (list_ascii_of_string kept = filter supported (list_ascii_of_string txt)) as Ek.
  { subst kept. unfold keep_supported. apply list_ascii_of_string_of_list_ascii. }
  assert (forallb supported (list_ascii_of_string kept) = true) as Hall.
  { rewrite Ek. apply forallb_forall. intros c Hc. apply filter_In in Hc. tauto. }
  assert (fst (small35_text_size txt spacing)
          = fst (small35_text_size kept spacing)
            + (if trailing_unsupported (list_ascii_of_string txt) then spacing else 0))
    as Hw.
  { rewrite !small35_text_size_run. cbn [fst]. rewrite Ek. apply width_run_filter. }
  split; [|split; [exact Hall|split; [|split; [exact Hw|split; [|split]]]]].
  - rewrite !draw_small35_run, Ek. symmetry. apply draw_run_filter.
  - destruct (Z.ltb_spec 0 n) as [Hpos|Hzero].
    + apply small35_width_all_supported; [exact Hall|].
      intros E. subst n. rewrite E in Hpos. cbn in Hpos. lia.
    + assert (kept = "") as ->; [|reflexivity].
      destruct kept; [reflexivity|]. subst n. cbn [String.length] in Hzero. lia.
  - intros Hno. rewrite Hno, Z.add_0_r in Hw.
    rewrite (surjective_pairing (small35_text_size txt spacing)),
      (surjective_pairing (small35_text_size kept spacing)), Hw.
    rewrite !small35_text_size_run. reflexivity.
  - rewrite small35_text_size_run. cbn [fst]. unfold Py.enumerate.
    rewrite <- length_list_ascii.
    apply (draw_small35_pen_fold _ y spacing (list_ascii_of_string txt) 0 x []).
    reflexivity.
  - intros temp_c unit Hunit.
    assert (forallb supported (list_ascii_of_string (temp_raw temp_c ++ unit)) = true)
      as Hs.
    { rewrite list_ascii_of_string_app, forallb_app, (proj1 (temp_raw_ok temp_c)).
      destruct Hunit as [-> | ->]; reflexivity. }
    split.
    + unfold keep_supported. rewrite forallb_filter_id by exact Hs.
      apply string_of_list_ascii_of_string.
    + unfold trailing_unsupported. apply andb_false_iff.
      destruct (list_ascii_of_string (temp_raw temp_c ++ unit)) as [|c l] eqn:El;
        [left; reflexivity|].
      right. apply negb_false_iff. rewrite forallb_forall in Hs. apply Hs.
      destruct (exists_last (l := c :: l) ltac:(discriminate)) as (l' & a & E).
      rewrite E, last_last. apply in_or_app. right. left. reflexivity.
Qed.

(** The original sentence fails at ["5x"]: the text without its unsupported
    character is ["5"], three columns wide, and both texts draw the same
    points; but the width computed for ["5x"] is 4, the advance of the pen. *)
Lemma small35_width_counts_trailing_spacing :
  keep_supported "5x" = "5"
  /\ draw_small35 0 1 "5x" 1 = draw_small35 0 1 "5" 1
  /\ small35_text_size "5" 1 = (3, 5)
  /\ small35_text_size "5x" 1 = (4, 5)
  /\ ~ width_ignores_unsupported.
Proof.
  repeat split. intros Hclaim. specialize (Hclaim "5x" 1). discriminate Hclaim.
Qed.

(** ** The temperature widget *)






Section TemperatureProperties.
Context {R : Runtime}.


Lemma bool_of_int_true (n : Z) : Py.bool_of_int n = true <-> n <> 0.
Proof. unfold Py.bool_of_int. rewrite negb_true_iff, Z.eqb_neq. reflexivity. Qed.

Lemma bool_of_int_false (n : Z) : Py.bool_of_int n = false <-> n = 0.
Proof. unfold Py.bool_of_int. rewrite negb_false_iff, Z.eqb_eq. reflexivity. Qed.







End TemperatureProperties.


(** ** More of the loop *)

Section LoopProperties.
Context {R : Runtime}.

(** X3. The brightness is looked at once per observed minute: when
    auto-dim is on and the minute differs from the last one looked at, the
    minute is recorded and the contrast is set to the night level inside the
    night window and to the day level outside it, but only if that changes
    the level; otherwise nothing happens. *)
Theorem auto_dim_once_per_minute :
  forall (cfg : config) (st : state) (now : datetime),
    let r := auto_dim_step cfg st now in
    let target := if _in_window now (night_from cfg) (night_to cfg)
                  then night_brt cfg else day_brt cfg in
    (auto_dim cfg = true -> minute now <> last_minute_for_dim st ->
       last_minute_for_dim (fst r) = minute now
       /\ current_brt (fst r) = target
       /\ (target <> current_brt st -> snd r = [Contrast target])
       /\ (target = current_brt st -> snd r = []))
    /\ (auto_dim cfg = false \/ minute now = last_minute_for_dim st -> r = (st, [])).
Proof.
  intros cfg st now r target. subst r. unfold auto_dim_step.
  fold target. change (brightness_target cfg now) with target.
  split.
  - intros Hon Hmin. rewrite Hon. cbn [andb].
    destruct (Z.eqb_spec (minute now) (last_minute_for_dim st)) as [|_]; [tauto|].
    cbn [negb]. destruct (Z.eqb_spec target (current_brt st)) as [E|N]; cbn [negb fst snd].
    + repeat split; auto. tauto.
    + repeat split; auto. tauto.
  - intros [Hoff|Hsame].
    + rewrite Hoff. reflexivity.
    + rewrite Hsame, Z.eqb_refl, andb_false_r. reflexivity.
Qed.


Lemma range3_down_head (start : Z) :
  0 <= start ->
  exists rest, Py.range3 start (-1) (-1) = start :: rest.
Proof.
  intros Hs. unfold Py.range3, Py.range_len. cbn [Z.ltb Z.compare Z.opp].
  destruct (Z.ltb_spec (-1) start) as [_|]; [|lia].
  replace (Z.to_nat ((start - -1 - 1) / 1 + 1)) with (S (Z.to_nat start))
    by (rewrite Z.div_1_r; lia).
  cbn [seq map]. eexists. f_equal. lia.
Qed.

(** X6. A negative delay. [time.sleep] raises on a negative length, and
    nothing in the program catches it: with LED_TICKER_SPEED below zero the
    marquee draws its first frame, the text at the right edge, and raises;
    with LED_MINUTE_SWIPE_DELAY below zero the swipe draws its first frame,
    the time shifted by the full swipe, and raises. A shutdown request seen
    at the first check comes before either: nothing is drawn and nothing
    raised. *)
Theorem negative_delay_raises :
  forall (dev : device) (delay : Q) (stop : stop_flag),
    (delay < 0)%Q ->
    (forall text_ascii f gap,
        let w := fst (textsize text_ascii f) in
        let h := snd (textsize text_ascii f) in
        let run := marquee_once_legacy dev text_ascii f delay gap stop in
        (stop 0%nat = false -> 0 < width dev + w + gap ->
           run = [Frame [Text (width dev) (Z.max 0 ((height dev - h) / 2)) text_ascii f];
                  SleepRaised delay])
        /\ (stop 0%nat = true \/ width dev + w + gap <= 0 -> run = []))
    /\ (forall timestr time_font blink left_reserved colon_vgap temp_txt swipe_px,
          let run := minute_swipe dev timestr time_font blink left_reserved colon_vgap
                       temp_txt swipe_px delay stop in
          (stop 0%nat = false ->
             run = [Frame (draw_temp dev temp_txt
                           ++ draw_time_with_custom_colon dev timestr time_font false
                                left_reserved 1 1 colon_vgap (Z.max 1 swipe_px));
                    SleepRaised delay])
          /\ (stop 0%nat = true -> run = [])).
Proof.
  intros dev delay stop Hneg.
  assert (sleep_raises delay = true) as Hr by (apply sleep_raises_iff; exact Hneg).
  split.
  - intros text_ascii f gap w h run. subst w h run. unfold marquee_once_legacy.
    destruct (textsize text_ascii f) as [w h]. cbn [fst snd].
    rewrite range3_from_zero. split.
    + intros Hgo Hpos.
      replace (Z.to_nat (width dev + w + gap))
        with (S (Z.to_nat (width dev + w + gap - 1))) by lia.
      cbn [seq map marquee_loop]. rewrite Hgo, Hr.
      change (Z.of_nat 0) with 0. rewrite Z.sub_0_r. reflexivity.
    + intros [Hstop|Hnone].
      * destruct (Z.to_nat (width dev + w + gap)); [reflexivity|].
        cbn [seq map marquee_loop]. rewrite Hstop. reflexivity.
      * replace (Z.to_nat (width dev + w + gap)) with 0%nat by lia. reflexivity.
  - intros timestr time_font blink left_reserved colon_vgap temp_txt swipe_px run.
    subst run. unfold minute_swipe.
    destruct (range3_down_head (Z.max 1 swipe_px) ltac:(lia)) as (rest & ->).
    cbn [minute_swipe_loop]. split.
    + intros Hgo. rewrite Hgo, Hr. reflexivity.
    + intros Hstop. rewrite Hstop. reflexivity.
Qed.


End LoopProperties.

(** With LED_TICKER_SPEED=-0.07 the marquee of "Sun 10 Aug 2025" draws the
    text at x = 32 and raises; with LED_MINUTE_SWIPE_DELAY=-0.03 the swipe
    stops after its first frame. *)
Lemma negative_delay_example :
  @marquee_once_legacy Demo.runtime display_32x8 "Sun 10 Aug 2025" TINY_FONT
    (- (7 # 100)) 16 (fun _ => false)
  = [Frame [Text 32 0 "Sun 10 Aug 2025" TINY_FONT]; SleepRaised (- (7 # 100))]
  /\ List.length
       (@minute_swipe Demo.runtime display_32x8 "12:34" TINY_FONT false 11 2
          (Some "--C") 8 (- (3 # 100)) (fun _ => false)) = 2%nat.
Proof.
  assert (- (7 # 100) < 0)%Q as H7 by reflexivity.
  assert (- (3 # 100) < 0)%Q as H3 by reflexivity.
  split.
  - apply (proj1 (@negative_delay_raises Demo.runtime display_32x8 _ (fun _ => false) H7))
      with (gap := 16); [reflexivity|vm_compute; reflexivity].
  - destruct (@negative_delay_raises Demo.runtime display_32x8 _ (fun _ => false) H3)
      as [_ Hswipe].
    rewrite (proj1 (Hswipe "12:34" TINY_FONT false 11 2 (Some "--C") 8) eq_refl).
    reflexivity.
Defined.


